(** * Dynamips virtual ATM switch ([gns3server/modules/dynamips/nodes/atm_switch.py])

    A shallow embedding of the [ATMSwitch] class: the port table [_nios], the
    virtual-circuit table [_mapping], the command exchange with the hypervisor
    and the capture control on a port's NIO, followed by the properties of the
    device that its specification states. [create] and [delete], which go
    through the manager and the device registry of the base class, are left
    out: no property below is about them.

    Python objects are modelled as follows.
    - [int] port numbers, VPIs and VCIs are [Z].
    - [str] is [string]; each character is a code point in 0..255.
    - the tuples [(port, vpi)] and [(port, vpi, vci)] used as dictionary keys
      are [list Z], so that the two shapes differ by their length only, as in
      the source.
    - [dict] is [gmap]; [d[k]] on a missing key and [del d[k]] on a missing
      key raise [KeyError].
    - a NIO is an object with identity: the port table stores references into
      a store of NIO objects, so that one NIO bound to two ports is one object.
    - a coroutine that raises leaves behind every mutation done before the
      [raise]: methods are functions [World -> result A * World]. *)

From stdpp Require Import gmap strings list fin_maps functions pretty.
From Stdlib Require Import ZArith String Ascii.

Local Open Scope Z_scope.
Local Open Scope string_scope.

(** ** Python primitives used by the module *)

Module Py.

(** The double quote character, and [s] between double quotes. *)
Definition dquote : string := String "034"%char EmptyString.

Definition quoted (s : string) : string := dquote +:+ s +:+ dquote.

(** [str(n)] for an [int]. *)
Definition str_int (n : Z) : string := pretty n.

(** [chr(c).lower()] for a code point below 256: the ASCII capitals and the
    Latin-1 capitals (all of 192..222 but the multiplication sign 215) move
    up by 32, every other character is its own lower case. *)
Definition lower_char (c : ascii) : ascii :=
  let n := N_of_ascii c in
  if ((65 <=? n) && (n <=? 90) || (192 <=? n) && (n <=? 222) && negb (n =? 215))%N
  then ascii_of_N (n + 32)
  else c.

(** [s.lower()] *)
Fixpoint lower (s : string) : string :=
  match s with
  | EmptyString => EmptyString
  | String c rest => String (lower_char c) (lower rest)
  end.

(** [s.startswith(p)] *)
Definition startswith (s p : string) : bool := String.prefix p s.

(** [s[n:]] for [n >= 0] *)
Fixpoint slice_from (n : nat) (s : string) : string :=
  match n, s with
  | O, _ => s
  | S _, EmptyString => EmptyString
  | S n', String _ rest => slice_from n' rest
  end.

(** [sub in s] for two strings. *)
Definition contains (s sub : string) : bool :=
  match String.index 0 sub s with
  | Some _ => true
  | None => false
  end.

(** [x is not None] *)
Definition is_not_None {A} (x : option A) : bool :=
  match x with
  | Some _ => true
  | None => false
  end.

(** [k in d] for a dictionary. *)
Definition in_dict `{Countable K} {V} (k : K) (d : gmap K V) : bool :=
  bool_decide (is_Some (d !! k)).

End Py.

(** ** Collaborators *)

(** A NIO object, as far as the switch looks into it: its string form (the
    commands render a NIO with [str]) and the two filter attributes, each a
    pair [(filter name, options)] whose first component is [None] when no
    filter is bound. *)
Record NIO := mkNIO {
  nio_str : string;
  input_filter : option string * option string;
  output_filter : option string * option string
}.

(** References to NIO objects. *)
Definition nio_ref := N.

(** Modelled from the spec: the NIO class is not part of this module; its
    packet-filter mechanics are a capability, [bind_filter(direction,
    filter_name)], [setup_filter(direction, args)] and
    [unbind_filter(direction)], each either succeeding or failing. A capability
    maps the NIO object to whether it succeeded and to the object afterwards. *)
Class NIOFilters := {
  bind_filter : NIO → string → string → bool * NIO;
  setup_filter : NIO → string → string → bool * NIO;
  unbind_filter : NIO → string → bool * NIO
}.

(** Modelled from the spec: the hypervisor is a command channel,
    [send(command) -> ack | error]. The answer may depend on the commands sent
    before; [inl] is an acknowledgement, [inr] the raw response of a failure. *)
Class Channel := {
  send : list string → string → string + string
}.

(** A hypervisor session: the commands sent over it so far, oldest first. *)
Record Hypervisor := mkHypervisor {
  hv_sent : list string
}.

(** An invocation of a NIO capability. *)
Inductive nio_call :=
| BindFilter (nio : nio_ref) (direction filter_name : string)
| SetupFilter (nio : nio_ref) (direction options : string)
| UnbindFilter (nio : nio_ref) (direction : string).

(** ** Exceptions *)

(** A dictionary key: a port number or a tuple. *)
Inductive pykey :=
| KInt (n : Z)
| KTuple (t : list Z).

(** [DynamipsError] is what the module itself raises. [KeyError] and
    [AttributeError] are Python's. The failures of the two collaborators are
    kept apart: [ProtocolError] for a command that the channel does not
    acknowledge, with the command and the raw response, [NIOError] for a
    capability that fails. *)
Inductive exn :=
| DynamipsError (msg : string)
| KeyError (key : pykey)
| AttributeError (msg : string)
| ProtocolError (command response : string)
| NIOError (capability : string).

Inductive result (A : Type) :=
| Ok (a : A)
| Raise (e : exn).
Arguments Ok {A} a.
Arguments Raise {A} e.

(** ** The device *)

Record ATMSwitch := mkATMSwitch {
  _name : string;
  _id : string;
  _hypervisor : option Hypervisor;
  _nios : gmap Z nio_ref;
  _mapping : gmap (list Z) (list Z)
}.

(** The device, the NIO objects its ports refer to, and the capability
    invocations made so far, oldest first. *)
Record World := mkWorld {
  self : ATMSwitch;
  nio_objects : nio_ref → NIO;
  nio_calls : list nio_call
}.

Definition set_self (s : ATMSwitch) (w : World) : World :=
  mkWorld s (nio_objects w) (nio_calls w).

(** ** Methods as state transformers that may raise *)

Definition M (A : Type) : Type := World → result A * World.

Definition ret {A} (a : A) : M A := fun w => (Ok a, w).

Definition bind {A B} (m : M A) (k : A → M B) : M B :=
  fun w =>
    match m w with
    | (Ok a, w') => k a w'
    | (Raise e, w') => (Raise e, w')
    end.

Definition raise {A} (e : exn) : M A := fun w => (Raise e, w).

Definition get_self : M ATMSwitch := fun w => (Ok (self w), w).

Definition put_self (s : ATMSwitch) : M unit := fun w => (Ok tt, set_self s w).

Declare Scope py_scope.
Delimit Scope py_scope with py.
Notation "x <- m ;; k" := (bind m (fun x => k))
  (at level 100, m at next level, right associativity) : py_scope.
Notation "m ;; k" := (bind m (fun _ => k))
  (at level 100, right associativity) : py_scope.
Local Open Scope py_scope.

(** [self._nios[port]] *)
Definition getitem_nios (port : Z) : M nio_ref :=
  s <- get_self ;;
  match _nios s !! port with
  | Some nio => ret nio
  | None => raise (KeyError (KInt port))
  end.

(** [str(nio)] *)
Definition str_nio (nio : nio_ref) : M string :=
  fun w => (Ok (nio_str (nio_objects w nio)), w).

(** Reading the attributes of a NIO object. *)
Definition get_nio (nio : nio_ref) : M NIO :=
  fun w => (Ok (nio_objects w nio), w).

(** [self._mapping[key] = value] *)
Definition setitem_mapping (key value : list Z) : M unit :=
  s <- get_self ;;
  put_self (mkATMSwitch (_name s) (_id s) (_hypervisor s) (_nios s)
                        (<[key := value]> (_mapping s))).

(** [del self._mapping[key]] *)
Definition delitem_mapping (key : list Z) : M unit :=
  s <- get_self ;;
  match _mapping s !! key with
  | Some _ =>
      put_self (mkATMSwitch (_name s) (_id s) (_hypervisor s) (_nios s)
                            (delete key (_mapping s)))
  | None => raise (KeyError (KTuple key))
  end.

Section Device.

Context {channel : Channel} {filters : NIOFilters}.

(** [yield from self._hypervisor.send(command)]: without a hypervisor the
    attribute lookup on [None] fails; otherwise the command goes over the
    channel and a failure is raised to the caller. *)
Definition hypervisor_send (command : string) : M unit :=
  s <- get_self ;;
  match _hypervisor s with
  | None => raise (AttributeError "'NoneType' object has no attribute 'send'")
  | Some hv =>
      put_self (mkATMSwitch (_name s) (_id s)
                            (Some (mkHypervisor (hv_sent hv ++ [command])))
                            (_nios s) (_mapping s)) ;;
      match send (hv_sent hv) command with
      | inl _ => ret tt
      | inr response => raise (ProtocolError command response)
      end
  end.

Definition nio_call_target (c : nio_call) : nio_ref :=
  match c with
  | BindFilter nio _ _ | SetupFilter nio _ _ | UnbindFilter nio _ => nio
  end.

Definition nio_call_name (c : nio_call) : string :=
  match c with
  | BindFilter _ _ _ => "bind_filter"
  | SetupFilter _ _ _ => "setup_filter"
  | UnbindFilter _ _ => "unbind_filter"
  end.

Definition nio_call_effect (c : nio_call) (o : NIO) : bool * NIO :=
  match c with
  | BindFilter _ direction filter_name => bind_filter o direction filter_name
  | SetupFilter _ direction options => setup_filter o direction options
  | UnbindFilter _ direction => unbind_filter o direction
  end.

(** [yield from nio.<capability>(...)]: the call is recorded, the NIO object
    is replaced by what the capability leaves, and a failure is raised. *)
Definition invoke (c : nio_call) : M unit :=
  fun w =>
    let nio := nio_call_target c in
    let '(ok, o) := nio_call_effect c (nio_objects w nio) in
    let w' := mkWorld (self w) (<[nio := o]> (nio_objects w)) (nio_calls w ++ [c]) in
    (if ok then Ok tt else Raise (NIOError (nio_call_name c)), w').

(** *** Lifecycle: renaming *)

Definition set_name (new_name : string) : M unit :=
  s <- get_self ;;
  hypervisor_send ("atm rename " +:+ Py.quoted (_name s) +:+ " " +:+ Py.quoted new_name) ;;
  s <- get_self ;;
  put_self (mkATMSwitch new_name (_id s) (_hypervisor s) (_nios s) (_mapping s)).

(** *** Accessors *)

Definition nios : M (gmap Z nio_ref) :=
  s <- get_self ;; ret (_nios s).

Definition mapping : M (gmap (list Z) (list Z)) :=
  s <- get_self ;; ret (_mapping s).

(** *** Ports *)

Definition has_port (port : Z) : M bool :=
  s <- get_self ;;
  if Py.in_dict port (_nios s) then ret true else ret false.

Definition add_nio (nio : nio_ref) (port_number : Z) : M unit :=
  s <- get_self ;;
  if Py.in_dict port_number (_nios s)
  then raise (DynamipsError ("Port " +:+ Py.str_int port_number +:+ " isn't free"))
  else
    put_self (mkATMSwitch (_name s) (_id s) (_hypervisor s)
                          (<[port_number := nio]> (_nios s)) (_mapping s)).

Definition remove_nio (port_number : Z) : M nio_ref :=
  s <- get_self ;;
  if negb (Py.in_dict port_number (_nios s))
  then raise (DynamipsError ("Port " +:+ Py.str_int port_number +:+ " is not allocated"))
  else
    nio <- getitem_nios port_number ;;
    s <- get_self ;;
    put_self (mkATMSwitch (_name s) (_id s) (_hypervisor s)
                          (delete port_number (_nios s)) (_mapping s)) ;;
    ret nio.

(** *** Virtual paths *)

(** The text of a VP command: the verb, the quoted switch name, and the two
    ends, each a NIO and a VPI. *)
Definition vpc_command (verb name nio1 : string) (vpi1 : Z) (nio2 : string) (vpi2 : Z) : string :=
  "atmsw " +:+ verb +:+ " " +:+ Py.quoted name +:+ " " +:+ nio1 +:+ " " +:+ Py.str_int vpi1
           +:+ " " +:+ nio2 +:+ " " +:+ Py.str_int vpi2.

Definition map_vp (port1 vpi1 port2 vpi2 : Z) : M unit :=
  s <- get_self ;;
  if negb (Py.in_dict port1 (_nios s))
  then raise (DynamipsError ("Port " +:+ Py.str_int port1 +:+ " is not allocated"))
  else
  if negb (Py.in_dict port2 (_nios s))
  then raise (DynamipsError ("Port " +:+ Py.str_int port2 +:+ " is not allocated"))
  else
    nio1 <- getitem_nios port1 ;;
    nio2 <- getitem_nios port2 ;;
    input_nio <- str_nio nio1 ;;
    output_nio <- str_nio nio2 ;;
    hypervisor_send (vpc_command "create_vpc" (_name s) input_nio vpi1 output_nio vpi2) ;;
    setitem_mapping [port1; vpi1] [port2; vpi2].

Definition unmap_vp (port1 vpi1 port2 vpi2 : Z) : M unit :=
  s <- get_self ;;
  if negb (Py.in_dict port1 (_nios s))
  then raise (DynamipsError ("Port " +:+ Py.str_int port1 +:+ " is not allocated"))
  else
  if negb (Py.in_dict port2 (_nios s))
  then raise (DynamipsError ("Port " +:+ Py.str_int port2 +:+ " is not allocated"))
  else
    nio1 <- getitem_nios port1 ;;
    nio2 <- getitem_nios port2 ;;
    input_nio <- str_nio nio1 ;;
    output_nio <- str_nio nio2 ;;
    hypervisor_send (vpc_command "delete_vpc" (_name s) input_nio vpi1 output_nio vpi2) ;;
    delitem_mapping [port1; vpi1].

(** *** Virtual channels *)

Definition vcc_command (verb name nio1 : string) (vpi1 vci1 : Z)
                       (nio2 : string) (vpi2 vci2 : Z) : string :=
  "atmsw " +:+ verb +:+ " " +:+ Py.quoted name +:+ " " +:+ nio1 +:+ " " +:+ Py.str_int vpi1
           +:+ " " +:+ Py.str_int vci1 +:+ " " +:+ nio2 +:+ " " +:+ Py.str_int vpi2
           +:+ " " +:+ Py.str_int vci2.

Definition map_pvc (port1 vpi1 vci1 port2 vpi2 vci2 : Z) : M unit :=
  s <- get_self ;;
  if negb (Py.in_dict port1 (_nios s))
  then raise (DynamipsError ("Port " +:+ Py.str_int port1 +:+ " is not allocated"))
  else
  if negb (Py.in_dict port2 (_nios s))
  then raise (DynamipsError ("Port " +:+ Py.str_int port2 +:+ " is not allocated"))
  else
    nio1 <- getitem_nios port1 ;;
    nio2 <- getitem_nios port2 ;;
    input_nio <- str_nio nio1 ;;
    output_nio <- str_nio nio2 ;;
    hypervisor_send (vcc_command "create_vcc" (_name s) input_nio vpi1 vci1 output_nio vpi2 vci2) ;;
    setitem_mapping [port1; vpi1; vci1] [port2; vpi2; vci2].

Definition unmap_pvc (port1 vpi1 vci1 port2 vpi2 vci2 : Z) : M unit :=
  s <- get_self ;;
  if negb (Py.in_dict port1 (_nios s))
  then raise (DynamipsError ("Port " +:+ Py.str_int port1 +:+ " is not allocated"))
  else
  if negb (Py.in_dict port2 (_nios s))
  then raise (DynamipsError ("Port " +:+ Py.str_int port2 +:+ " is not allocated"))
  else
    nio1 <- getitem_nios port1 ;;
    nio2 <- getitem_nios port2 ;;
    input_nio <- str_nio nio1 ;;
    output_nio <- str_nio nio2 ;;
    hypervisor_send (vcc_command "delete_vcc" (_name s) input_nio vpi1 vci1 output_nio vpi2 vci2) ;;
    delitem_mapping [port1; vpi1; vci1].

(** *** Capture *)

(** The first lines of [start_capture]: the data link type in lower case,
    without its first four characters when these are [dlt_]. *)
Definition normalize_data_link_type (data_link_type : string) : string :=
  let data_link_type := Py.lower data_link_type in
  if Py.startswith data_link_type "dlt_"
  then Py.slice_from 4 data_link_type
  else data_link_type.

Definition start_capture (port_number : Z) (output_file data_link_type : string) : M unit :=
  s <- get_self ;;
  if negb (Py.in_dict port_number (_nios s))
  then raise (DynamipsError ("Port " +:+ Py.str_int port_number +:+ " is not allocated"))
  else
    nio <- getitem_nios port_number ;;
    let data_link_type := normalize_data_link_type data_link_type in
    o <- get_nio nio ;;
    if Py.is_not_None (input_filter o).1 && Py.is_not_None (output_filter o).1
    then raise (DynamipsError ("Port " +:+ Py.str_int port_number +:+ " has already a filter applied"))
    else
      invoke (BindFilter nio "both" "capture") ;;
      invoke (SetupFilter nio "both" (data_link_type +:+ " " +:+ output_file)).

(** The default of the [data_link_type] parameter. *)
Definition default_data_link_type : string := "DLT_ATM_RFC1483".

Definition stop_capture (port_number : Z) : M unit :=
  s <- get_self ;;
  if negb (Py.in_dict port_number (_nios s))
  then raise (DynamipsError ("Port " +:+ Py.str_int port_number +:+ " is not allocated"))
  else
    nio <- getitem_nios port_number ;;
    invoke (UnbindFilter nio "both").

(** *** The public operations, as data *)

Inductive value :=
| VNone
| VBool (b : bool)
| VNio (nio : nio_ref).

Inductive call :=
| SetName (new_name : string)
| HasPort (port : Z)
| AddNio (nio : nio_ref) (port_number : Z)
| RemoveNio (port_number : Z)
| MapVp (port1 vpi1 port2 vpi2 : Z)
| UnmapVp (port1 vpi1 port2 vpi2 : Z)
| MapPvc (port1 vpi1 vci1 port2 vpi2 vci2 : Z)
| UnmapPvc (port1 vpi1 vci1 port2 vpi2 vci2 : Z)
| StartCapture (port_number : Z) (output_file data_link_type : string)
| StopCapture (port_number : Z).

Definition run (c : call) : M value :=
  match c with
  | SetName new_name => set_name new_name ;; ret VNone
  | HasPort port => b <- has_port port ;; ret (VBool b)
  | AddNio nio port_number => add_nio nio port_number ;; ret VNone
  | RemoveNio port_number => nio <- remove_nio port_number ;; ret (VNio nio)
  | MapVp port1 vpi1 port2 vpi2 => map_vp port1 vpi1 port2 vpi2 ;; ret VNone
  | UnmapVp port1 vpi1 port2 vpi2 => unmap_vp port1 vpi1 port2 vpi2 ;; ret VNone
  | MapPvc port1 vpi1 vci1 port2 vpi2 vci2 =>
      map_pvc port1 vpi1 vci1 port2 vpi2 vci2 ;; ret VNone
  | UnmapPvc port1 vpi1 vci1 port2 vpi2 vci2 =>
      unmap_pvc port1 vpi1 vci1 port2 vpi2 vci2 ;; ret VNone
  | StartCapture port_number output_file data_link_type =>
      start_capture port_number output_file data_link_type ;; ret VNone
  | StopCapture port_number => stop_capture port_number ;; ret VNone
  end.

End Device.

(** ** The error kinds of the specification, as the module raises them *)

Definition PortConflictError (port : Z) : exn :=
  DynamipsError ("Port " +:+ Py.str_int port +:+ " isn't free").

Definition PortNotAllocatedError (port : Z) : exn :=
  DynamipsError ("Port " +:+ Py.str_int port +:+ " is not allocated").

Definition FilterAlreadyAppliedError (port : Z) : exn :=
  DynamipsError ("Port " +:+ Py.str_int port +:+ " has already a filter applied").

(** The module has no error of its own for a circuit that is not mapped: what
    surfaces is the [KeyError] of [del self._mapping[key]]. *)
Definition CircuitNotMappedError (key : list Z) : exn :=
  KeyError (KTuple key).

(** ** Observations on a world *)

(** The commands sent to the hypervisor so far; none without a hypervisor. *)
Definition commands_sent (w : World) : list string :=
  match _hypervisor (self w) with
  | Some hv => hv_sent hv
  | None => []
  end.

(** The operations that issue a hypervisor command. *)
Definition issues_command (c : call) : bool :=
  match c with
  | SetName _ | MapVp _ _ _ _ | UnmapVp _ _ _ _
  | MapPvc _ _ _ _ _ _ | UnmapPvc _ _ _ _ _ _ => true
  | _ => false
  end.

(** The port arguments of an operation. *)
Definition ports_of (c : call) : list Z :=
  match c with
  | SetName _ => []
  | HasPort port => [port]
  | AddNio _ port_number | RemoveNio port_number
  | StartCapture port_number _ _ | StopCapture port_number => [port_number]
  | MapVp port1 _ port2 _ | UnmapVp port1 _ port2 _
  | MapPvc port1 _ _ port2 _ _ | UnmapPvc port1 _ _ port2 _ _ => [port1; port2]
  end.

Definition ports_allocated (c : call) (w : World) : Prop :=
  Forall (fun port => is_Some (_nios (self w) !! port)) (ports_of c).

(** The world once [command] went over the channel of hypervisor [hv]. *)
Definition logged (hv : Hypervisor) (command : string) (w : World) : World :=
  set_self (mkATMSwitch (_name (self w)) (_id (self w))
                        (Some (mkHypervisor (hv_sent hv ++ [command])))
                        (_nios (self w)) (_mapping (self w))) w.

(** The same world with another circuit table. *)
Definition with_mapping (circuits : gmap (list Z) (list Z)) (w : World) : World :=
  set_self (mkATMSwitch (_name (self w)) (_id (self w)) (_hypervisor (self w))
                        (_nios (self w)) circuits) w.

Definition with_name (new_name : string) (w : World) : World :=
  set_self (mkATMSwitch new_name (_id (self w)) (_hypervisor (self w))
                        (_nios (self w)) (_mapping (self w))) w.

(** The command of a circuit operation between two NIOs. *)
Definition vp_command (verb : string) (w : World) (nio1 : nio_ref) (vpi1 : Z)
                      (nio2 : nio_ref) (vpi2 : Z) : string :=
  vpc_command verb (_name (self w)) (nio_str (nio_objects w nio1)) vpi1
              (nio_str (nio_objects w nio2)) vpi2.

Definition vc_command (verb : string) (w : World) (nio1 : nio_ref) (vpi1 vci1 : Z)
                      (nio2 : nio_ref) (vpi2 vci2 : Z) : string :=
  vcc_command verb (_name (self w)) (nio_str (nio_objects w nio1)) vpi1 vci1
              (nio_str (nio_objects w nio2)) vpi2 vci2.

Definition rename_command (w : World) (new_name : string) : string :=
  "atm rename " +:+ Py.quoted (_name (self w)) +:+ " " +:+ Py.quoted new_name.

(** The source key of a circuit operation. *)
Definition source_key (c : call) : option (list Z) :=
  match c with
  | MapVp port1 vpi1 _ _ | UnmapVp port1 vpi1 _ _ => Some [port1; vpi1]
  | MapPvc port1 vpi1 vci1 _ _ _ | UnmapPvc port1 vpi1 vci1 _ _ _ => Some [port1; vpi1; vci1]
  | _ => None
  end.

(** ** Test doubles *)

(** A channel that acknowledges every command, and one that rejects every
    command. *)
Definition ack_channel : Channel :=
  {| send := fun _ _ => inl "100-OK" |}.

Definition down_channel : Channel :=
  {| send := fun _ _ => inr "206-unable to process command" |}.

(** NIO filters that always succeed: binding stores the filter name in the
    direction asked for, setting up stores the options, unbinding clears. *)
Definition towards (direction side : string) : bool :=
  String.eqb direction side || String.eqb direction "both".

Definition plain_filters : NIOFilters :=
  {| bind_filter o direction filter_name :=
       (true,
        mkNIO (nio_str o)
              (if towards direction "in" then (Some filter_name, None) else input_filter o)
              (if towards direction "out" then (Some filter_name, None) else output_filter o));
     setup_filter o direction options :=
       (true,
        mkNIO (nio_str o)
              (if towards direction "in" then ((input_filter o).1, Some options) else input_filter o)
              (if towards direction "out" then ((output_filter o).1, Some options) else output_filter o));
     unbind_filter o direction :=
       (true,
        mkNIO (nio_str o)
              (if towards direction "in" then (None, None) else input_filter o)
              (if towards direction "out" then (None, None) else output_filter o)) |}.

(** A switch [SW1] with NIO 1 on port 1 and NIO 2 on port 2, a hypervisor over
    which nothing was sent yet, and the given circuits. *)
Definition idle_nio (name : string) : NIO := mkNIO name (None, None) (None, None).

Definition sw1 (circuits : gmap (list Z) (list Z)) : World :=
  mkWorld (mkATMSwitch "SW1" "9f2c" (Some (mkHypervisor []))
                       (<[1 := 1%N]> (<[2 := 2%N]> ∅)) circuits)
          (fun r => idle_nio ("nio_udp" +:+ pretty r))
          [].

(** A circuit from (1, 5) to (2, 7) and the circuit back. *)
Definition both_ways : gmap (list Z) (list Z) :=
  {[ [1; 5] := [2; 7]; [2; 7] := [1; 5] ]}.

(** The same switch when the NIO of port 1 carries a filter on its input
    direction only. *)
Definition sw1_input_filter : World :=
  mkWorld (self (sw1 ∅))
          (<[1%N := mkNIO "nio_udp1" (Some "freq_drop", Some "50") (None, None)]>
             (nio_objects (sw1 ∅)))
          [].

(** ** Lifecycle: [create] and [delete] *)

(** Modelled from the spec: the manager is not part of this module.
    [start_new_hypervisor] either fails or returns a hypervisor session,
    together with the device list of that hypervisor. *)
Class Manager := {
  start_new_hypervisor : Hypervisor * list string + exn
}.

(** What the lifecycle methods raise: the exceptions of the methods above, and
    the [ValueError] of [list.remove] on an element that is not in the list. *)
Inductive lifecycle_exn :=
| Propagated (e : exn)
| ValueError (msg : string).

Inductive outcome :=
| Done
| Failed (e : lifecycle_exn).

(** The device in its surroundings. [devices] is [self._hypervisor.devices],
    the devices of the current hypervisor, each one by its identifier.
    Modelled from the spec: [_instances], the pool of the identifiers in use,
    is declared in the base class; it is a list of identifiers. *)
Record Site := mkSite {
  world : World;
  devices : list string;
  _instances : list string
}.

(** [l.remove(x)]: [l] without the first [x]; [None] stands for the
    [ValueError] of Python when [x] is not in [l]. *)
Fixpoint list_remove (x : string) (l : list string) : option (list string) :=
  match l with
  | [] => None
  | y :: rest =>
      if String.eqb y x then Some rest
      else match list_remove x rest with
           | Some rest' => Some (y :: rest')
           | None => None
           end
  end.

Definition not_in_list : lifecycle_exn := ValueError "list.remove(x): x not in list".

Definition with_hypervisor (hv : Hypervisor) (w : World) : World :=
  set_self (mkATMSwitch (_name (self w)) (_id (self w)) (Some hv)
                        (_nios (self w)) (_mapping (self w))) w.

Definition create_command (w : World) : string :=
  "atmsw create " +:+ Py.quoted (_name (self w)).

Definition delete_command (w : World) : string :=
  "atmsw delete " +:+ Py.quoted (_name (self w)).

Module Lifecycle.

Section Methods.

Context {channel : Channel} {manager : Manager}.

(** The first two lines of [create]: a device without a hypervisor gets one
    from the manager. *)
Definition ensure_hypervisor (st : Site) : Site + exn :=
  match _hypervisor (self (world st)) with
  | None =>
      match start_new_hypervisor with
      | inl (hv, hv_devices) =>
          inl (mkSite (with_hypervisor hv (world st)) hv_devices (_instances st))
      | inr e => inr e
      end
  | Some _ => inl st
  end.

Definition create (st : Site) : outcome * Site :=
  match ensure_hypervisor st with
  | inr e => (Failed (Propagated e), st)
  | inl st1 =>
      match hypervisor_send (create_command (world st1)) (world st1) with
      | (Ok _, w2) =>
          (Done, mkSite w2 (devices st1 ++ [_id (self w2)]) (_instances st1))
      | (Raise e, w2) =>
          (Failed (Propagated e), mkSite w2 (devices st1) (_instances st1))
      end
  end.

Definition delete (st : Site) : outcome * Site :=
  match hypervisor_send (delete_command (world st)) (world st) with
  | (Raise e, w1) => (Failed (Propagated e), mkSite w1 (devices st) (_instances st))
  | (Ok _, w1) =>
      match list_remove (_id (self w1)) (devices st) with
      | None => (Failed not_in_list, mkSite w1 (devices st) (_instances st))
      | Some devices1 =>
          match list_remove (_id (self w1)) (_instances st) with
          | None => (Failed not_in_list, mkSite w1 devices1 (_instances st))
          | Some instances1 => (Done, mkSite w1 devices1 instances1)
          end
      end
  end.

End Methods.

End Lifecycle.

(** ** What an operation may touch *)

(** The port whose binding an operation can change. *)
Definition touches_port (c : call) : option Z :=
  match c with
  | AddNio _ port_number | RemoveNio port_number => Some port_number
  | _ => None
  end.

(** The port whose NIO an operation can call. *)
Definition captures_port (c : call) : option Z :=
  match c with
  | StartCapture port_number _ _ | StopCapture port_number => Some port_number
  | _ => None
  end.

Definition is_rename (c : call) : bool :=
  match c with
  | SetName _ => true
  | _ => false
  end.

Definition nio_call_direction (c : nio_call) : string :=
  match c with
  | BindFilter _ direction _ | SetupFilter _ direction _ | UnbindFilter _ direction => direction
  end.

(** ** More test doubles *)

(** Filters whose [setup_filter] fails after a [bind_filter] that worked, and
    filters whose [bind_filter] fails. *)
Definition setup_failing_filters : NIOFilters :=
  {| bind_filter := @bind_filter plain_filters;
     setup_filter o direction options := (false, o);
     unbind_filter := @unbind_filter plain_filters |}.

Definition bind_failing_filters : NIOFilters :=
  {| bind_filter o direction filter_name := (false, o);
     setup_filter := @setup_filter plain_filters;
     unbind_filter := @unbind_filter plain_filters |}.

(** A manager that starts a hypervisor with no device, and one that fails. *)
Definition fresh_manager : Manager :=
  {| start_new_hypervisor := inl (mkHypervisor [], []) |}.

Definition failing_manager : Manager :=
  {| start_new_hypervisor := inr (DynamipsError "Dynamips executable not found") |}.

(** [SW1] before [create]: no hypervisor yet. *)
Definition sw1_detached : World :=
  mkWorld (mkATMSwitch "SW1" "9f2c" None (<[1 := 1%N]> (<[2 := 2%N]> ∅)) ∅)
          (nio_objects (sw1 ∅))
          [].

(** [SW1] with a third port, 3, that shares the NIO of port 1. *)
Definition sw1_shared_nio : World :=
  mkWorld (mkATMSwitch "SW1" "9f2c" (Some (mkHypervisor []))
                       (<[3 := 1%N]> (<[1 := 1%N]> (<[2 := 2%N]> ∅))) ∅)
          (nio_objects (sw1 ∅))
          [].

(** [SW1] while a capture runs on port 1. *)
Definition sw1_capturing : World :=
  mkWorld (self (sw1 ∅))
          (<[1%N := mkNIO "nio_udp1" (Some "capture", Some "atm_rfc1483 /tmp/out.pcap")
                          (Some "capture", Some "atm_rfc1483 /tmp/out.pcap")]>
             (nio_objects (sw1 ∅)))
          [].

(** [SW1] on a hypervisor that has another device, and [SW1] before it has a
    hypervisor; the pool holds the identifiers of both devices. *)
Definition site1 : Site := mkSite (sw1 ∅) ["a1b0"] ["a1b0"; "9f2c"].

Definition site1_detached : Site := mkSite sw1_detached [] ["a1b0"; "9f2c"].

(** ** Properties *)

Lemma in_dict_Some `{Countable K} {V} (k : K) (d : gmap K V) (v : V) :
  d !! k = Some v → Py.in_dict k d = true.
Proof.
  intros Hk. unfold Py.in_dict. apply bool_decide_eq_true_2. by exists v.
Qed.

Lemma in_dict_None `{Countable K} {V} (k : K) (d : gmap K V) :
  d !! k = None → Py.in_dict k d = false.
Proof.
  intros Hk. unfold Py.in_dict. apply bool_decide_eq_false_2.
  rewrite Hk. by intros [v Hv].
Qed.

Lemma in_dict_false `{Countable K} {V} (k : K) (d : gmap K V) :
  ¬ is_Some (d !! k) → Py.in_dict k d = false.
Proof.
  intros Hk. apply in_dict_None. by apply eq_None_not_Some.
Qed.

Ltac py_unfold :=
  unfold run, set_name, has_port, add_nio, remove_nio, map_vp, unmap_vp,
    map_pvc, unmap_pvc, start_capture, stop_capture, getitem_nios, str_nio,
    get_nio, setitem_mapping, delitem_mapping, hypervisor_send,
    bind, ret, raise, get_self, put_self, set_self;
  simpl.

Ltac open_world w :=
  destruct w as [[name id hypervisor ports circuits] objects calls]; simpl in *.

Section Properties.

Context {channel : Channel} {filters : NIOFilters}.

(** *** Port table *)

Lemma add_nio_bound (w : World) (nio nio2 : nio_ref) (p : Z) :
  _nios (self w) !! p = Some nio →
  add_nio nio2 p w = (Raise (PortConflictError p), w).
Proof.
  intros Hp. open_world w. py_unfold.
  by rewrite (in_dict_Some _ _ _ Hp).
Qed.

Lemma add_nio_free (w : World) (nio : nio_ref) (p : Z) :
  _nios (self w) !! p = None →
  add_nio nio p w =
    (Ok tt, set_self (mkATMSwitch (_name (self w)) (_id (self w)) (_hypervisor (self w))
                                  (<[p := nio]> (_nios (self w))) (_mapping (self w))) w).
Proof.
  intros Hp. open_world w. py_unfold.
  by rewrite (in_dict_None _ _ Hp).
Qed.

Lemma remove_nio_unbound (w : World) (p : Z) :
  _nios (self w) !! p = None →
  remove_nio p w = (Raise (PortNotAllocatedError p), w).
Proof.
  intros Hp. open_world w. py_unfold.
  by rewrite (in_dict_None _ _ Hp).
Qed.

(** C8: adding a NIO to a port that is bound fails with the port-conflict
    error and the world, hence the port table with the first binding, is as
    before; removing the NIO of a port that has none fails with the
    port-not-allocated error and the world is as before. *)
Theorem failing_port_operations_keep_table (w : World) (p : Z) :
  (∀ nio nio2 : nio_ref,
      _nios (self w) !! p = Some nio →
      ∃ w', add_nio nio2 p w = (Raise (PortConflictError p), w')
            ∧ _nios (self w') = _nios (self w)
            ∧ _nios (self w') !! p = Some nio)
  ∧ (_nios (self w) !! p = None →
     ∃ w', remove_nio p w = (Raise (PortNotAllocatedError p), w')
           ∧ _nios (self w') = _nios (self w)).
Proof.
  split.
  - intros nio nio2 Hp. exists w. by rewrite (add_nio_bound w nio nio2 p Hp).
  - intros Hp. exists w. by rewrite (remove_nio_unbound w p Hp).
Qed.

(** *** Mapping with a port that is not allocated *)

Lemma map_vp_unallocated (w : World) (port1 vpi1 port2 vpi2 : Z) :
  ¬ is_Some (_nios (self w) !! port1) ∨ ¬ is_Some (_nios (self w) !! port2) →
  ∃ p, (p = port1 ∨ p = port2)
       ∧ ¬ is_Some (_nios (self w) !! p)
       ∧ map_vp port1 vpi1 port2 vpi2 w = (Raise (PortNotAllocatedError p), w).
Proof.
  intros Hp. open_world w. py_unfold.
  destruct (ports !! port1) as [nio1|] eqn:H1.
  - rewrite (in_dict_Some _ _ _ H1). simpl.
    destruct Hp as [Hp|Hp]; [by destruct Hp; exists nio1|].
    rewrite (in_dict_false _ _ Hp). simpl. exists port2. by split; [right|].
  - rewrite (in_dict_None _ _ H1). simpl. exists port1.
    split; [by left|]. split; [|done]. rewrite H1. by intros [nio Hnio].
Qed.

Lemma map_pvc_unallocated (w : World) (port1 vpi1 vci1 port2 vpi2 vci2 : Z) :
  ¬ is_Some (_nios (self w) !! port1) ∨ ¬ is_Some (_nios (self w) !! port2) →
  ∃ p, (p = port1 ∨ p = port2)
       ∧ ¬ is_Some (_nios (self w) !! p)
       ∧ map_pvc port1 vpi1 vci1 port2 vpi2 vci2 w = (Raise (PortNotAllocatedError p), w).
Proof.
  intros Hp. open_world w. py_unfold.
  destruct (ports !! port1) as [nio1|] eqn:H1.
  - rewrite (in_dict_Some _ _ _ H1). simpl.
    destruct Hp as [Hp|Hp]; [by destruct Hp; exists nio1|].
    rewrite (in_dict_false _ _ Hp). simpl. exists port2. by split; [right|].
  - rewrite (in_dict_None _ _ H1). simpl. exists port1.
    split; [by left|]. split; [|done]. rewrite H1. by intros [nio Hnio].
Qed.

(** C4: when one of the two ports of [map_vp] or [map_pvc] has no NIO, the
    call raises the port-not-allocated error for one of its two ports, one that
    has no NIO; no command is sent, and the port table and the circuit table
    are as before. *)
Theorem map_with_unallocated_port (w : World) (port1 vpi1 vci1 port2 vpi2 vci2 : Z) :
  ¬ is_Some (_nios (self w) !! port1) ∨ ¬ is_Some (_nios (self w) !! port2) →
  (∃ p w', (p = port1 ∨ p = port2)
           ∧ ¬ is_Some (_nios (self w) !! p)
           ∧ map_vp port1 vpi1 port2 vpi2 w = (Raise (PortNotAllocatedError p), w')
           ∧ commands_sent w' = commands_sent w
           ∧ _nios (self w') = _nios (self w)
           ∧ _mapping (self w') = _mapping (self w))
  ∧ (∃ p w', (p = port1 ∨ p = port2)
             ∧ ¬ is_Some (_nios (self w) !! p)
             ∧ map_pvc port1 vpi1 vci1 port2 vpi2 vci2 w = (Raise (PortNotAllocatedError p), w')
             ∧ commands_sent w' = commands_sent w
             ∧ _nios (self w') = _nios (self w)
             ∧ _mapping (self w') = _mapping (self w)).
Proof.
  intros Hp. split.
  - destruct (map_vp_unallocated w port1 vpi1 port2 vpi2 Hp) as (p & Hor & Hfree & Hrun).
    by exists p, w.
  - destruct (map_pvc_unallocated w port1 vpi1 vci1 port2 vpi2 vci2 Hp)
      as (p & Hor & Hfree & Hrun).
    by exists p, w.
Qed.

(** *** One command, then the local update *)

Ltac run_allocated w H1 H2 :=
  open_world w; py_unfold;
  rewrite (in_dict_Some _ _ _ H1), (in_dict_Some _ _ _ H2); simpl;
  rewrite H1; simpl; rewrite H2; simpl.

Lemma set_name_run (w : World) (hv : Hypervisor) (new_name : string) :
  _hypervisor (self w) = Some hv →
  set_name new_name w =
    match send (hv_sent hv) (rename_command w new_name) with
    | inl _ => (Ok tt, with_name new_name (logged hv (rename_command w new_name) w))
    | inr r => (Raise (ProtocolError (rename_command w new_name) r),
                logged hv (rename_command w new_name) w)
    end.
Proof.
  intros Hhv. open_world w. py_unfold. subst hypervisor. simpl.
  unfold rename_command, logged, with_name, set_self; simpl.
  by destruct (send _ _).
Qed.

Lemma map_vp_run (w : World) (hv : Hypervisor) (port1 vpi1 port2 vpi2 : Z) (nio1 nio2 : nio_ref) :
  _hypervisor (self w) = Some hv →
  _nios (self w) !! port1 = Some nio1 →
  _nios (self w) !! port2 = Some nio2 →
  map_vp port1 vpi1 port2 vpi2 w =
    let cmd := vp_command "create_vpc" w nio1 vpi1 nio2 vpi2 in
    match send (hv_sent hv) cmd with
    | inl _ => (Ok tt, with_mapping (<[[port1; vpi1] := [port2; vpi2]]> (_mapping (self w)))
                                    (logged hv cmd w))
    | inr r => (Raise (ProtocolError cmd r), logged hv cmd w)
    end.
Proof.
  intros Hhv H1 H2. run_allocated w H1 H2. subst hypervisor. simpl.
  unfold vp_command, logged, with_mapping, set_self; simpl.
  by destruct (send _ _).
Qed.

Lemma unmap_vp_run (w : World) (hv : Hypervisor) (port1 vpi1 port2 vpi2 : Z) (nio1 nio2 : nio_ref) :
  _hypervisor (self w) = Some hv →
  _nios (self w) !! port1 = Some nio1 →
  _nios (self w) !! port2 = Some nio2 →
  unmap_vp port1 vpi1 port2 vpi2 w =
    let cmd := vp_command "delete_vpc" w nio1 vpi1 nio2 vpi2 in
    match send (hv_sent hv) cmd with
    | inl _ =>
        match _mapping (self w) !! [port1; vpi1] with
        | Some _ => (Ok tt, with_mapping (delete [port1; vpi1] (_mapping (self w)))
                                         (logged hv cmd w))
        | None => (Raise (CircuitNotMappedError [port1; vpi1]), logged hv cmd w)
        end
    | inr r => (Raise (ProtocolError cmd r), logged hv cmd w)
    end.
Proof.
  intros Hhv H1 H2. run_allocated w H1 H2. subst hypervisor. simpl.
  unfold vp_command, logged, with_mapping, set_self; simpl.
  destruct (send _ _); [|done]. simpl. by destruct (circuits !! _).
Qed.

Lemma map_pvc_run (w : World) (hv : Hypervisor) (port1 vpi1 vci1 port2 vpi2 vci2 : Z)
      (nio1 nio2 : nio_ref) :
  _hypervisor (self w) = Some hv →
  _nios (self w) !! port1 = Some nio1 →
  _nios (self w) !! port2 = Some nio2 →
  map_pvc port1 vpi1 vci1 port2 vpi2 vci2 w =
    let cmd := vc_command "create_vcc" w nio1 vpi1 vci1 nio2 vpi2 vci2 in
    match send (hv_sent hv) cmd with
    | inl _ =>
        (Ok tt, with_mapping (<[[port1; vpi1; vci1] := [port2; vpi2; vci2]]> (_mapping (self w)))
                             (logged hv cmd w))
    | inr r => (Raise (ProtocolError cmd r), logged hv cmd w)
    end.
Proof.
  intros Hhv H1 H2. run_allocated w H1 H2. subst hypervisor. simpl.
  unfold vc_command, logged, with_mapping, set_self; simpl.
  by destruct (send _ _).
Qed.

Lemma unmap_pvc_run (w : World) (hv : Hypervisor) (port1 vpi1 vci1 port2 vpi2 vci2 : Z)
      (nio1 nio2 : nio_ref) :
  _hypervisor (self w) = Some hv →
  _nios (self w) !! port1 = Some nio1 →
  _nios (self w) !! port2 = Some nio2 →
  unmap_pvc port1 vpi1 vci1 port2 vpi2 vci2 w =
    let cmd := vc_command "delete_vcc" w nio1 vpi1 vci1 nio2 vpi2 vci2 in
    match send (hv_sent hv) cmd with
    | inl _ =>
        match _mapping (self w) !! [port1; vpi1; vci1] with
        | Some _ => (Ok tt, with_mapping (delete [port1; vpi1; vci1] (_mapping (self w)))
                                         (logged hv cmd w))
        | None => (Raise (CircuitNotMappedError [port1; vpi1; vci1]), logged hv cmd w)
        end
    | inr r => (Raise (ProtocolError cmd r), logged hv cmd w)
    end.
Proof.
  intros Hhv H1 H2. run_allocated w H1 H2. subst hypervisor. simpl.
  unfold vc_command, logged, with_mapping, set_self; simpl.
  destruct (send _ _); [|done]. simpl. by destruct (circuits !! _).
Qed.

(** *** A command that the channel does not acknowledge *)

Lemma allocated_two (w : World) (port1 port2 : Z) :
  Forall (fun port => is_Some (_nios (self w) !! port)) [port1; port2] →
  ∃ nio1 nio2, _nios (self w) !! port1 = Some nio1 ∧ _nios (self w) !! port2 = Some nio2.
Proof.
  intros Hall.
  apply Forall_cons in Hall as [[nio1 H1] Hall].
  apply Forall_cons in Hall as [[nio2 H2] _].
  by exists nio1, nio2.
Qed.

(** C1: an operation that issues a hypervisor command, called with its ports
    allocated, sends exactly one command; when the channel fails on that
    command the operation raises the protocol error of that command and the
    name, the identifier, the port table and the circuit table are as before
    the call. With [MapVp] this is: no entry is added. *)
Theorem send_failure_keeps_local_state (c : call) (w : World) (hv : Hypervisor) :
  issues_command c = true →
  _hypervisor (self w) = Some hv →
  ports_allocated c w →
  ∃ cmd,
    commands_sent (run c w).2 = (hv_sent hv ++ [cmd])%list
    ∧ ∀ r, send (hv_sent hv) cmd = inr r →
           ∃ w', run c w = (Raise (ProtocolError cmd r), w')
                 ∧ _name (self w') = _name (self w)
                 ∧ _id (self w') = _id (self w)
                 ∧ _nios (self w') = _nios (self w)
                 ∧ _mapping (self w') = _mapping (self w).
Proof.
  intros Hc Hhv Hports. destruct c; try discriminate Hc.
  - exists (rename_command w new_name).
    unfold run, bind. rewrite (set_name_run w hv new_name Hhv).
    destruct (send _ _) as [a|r'] eqn:Hsend; simpl.
    + split; [done|]. intros r Hr. discriminate Hr.
    + split; [done|]. intros r Hr. injection Hr as <-. by eexists.
  - destruct (allocated_two w port1 port2 Hports) as (nio1 & nio2 & H1 & H2).
    exists (vp_command "create_vpc" w nio1 vpi1 nio2 vpi2).
    unfold run, bind. rewrite (map_vp_run w hv _ _ _ _ nio1 nio2 Hhv H1 H2). simpl.
    destruct (send _ _) as [a|r'] eqn:Hsend; simpl.
    + split; [done|]. intros r Hr. discriminate Hr.
    + split; [done|]. intros r Hr. injection Hr as <-. by eexists.
  - destruct (allocated_two w port1 port2 Hports) as (nio1 & nio2 & H1 & H2).
    exists (vp_command "delete_vpc" w nio1 vpi1 nio2 vpi2).
    unfold run, bind. rewrite (unmap_vp_run w hv _ _ _ _ nio1 nio2 Hhv H1 H2). simpl.
    destruct (send _ _) as [a|r'] eqn:Hsend; simpl.
    + split; [by destruct (_mapping (self w) !! _)|]. intros r Hr. discriminate Hr.
    + split; [done|]. intros r Hr. injection Hr as <-. by eexists.
  - destruct (allocated_two w port1 port2 Hports) as (nio1 & nio2 & H1 & H2).
    exists (vc_command "create_vcc" w nio1 vpi1 vci1 nio2 vpi2 vci2).
    unfold run, bind. rewrite (map_pvc_run w hv _ _ _ _ _ _ nio1 nio2 Hhv H1 H2). simpl.
    destruct (send _ _) as [a|r'] eqn:Hsend; simpl.
    + split; [done|]. intros r Hr. discriminate Hr.
    + split; [done|]. intros r Hr. injection Hr as <-. by eexists.
  - destruct (allocated_two w port1 port2 Hports) as (nio1 & nio2 & H1 & H2).
    exists (vc_command "delete_vcc" w nio1 vpi1 vci1 nio2 vpi2 vci2).
    unfold run, bind. rewrite (unmap_pvc_run w hv _ _ _ _ _ _ nio1 nio2 Hhv H1 H2). simpl.
    destruct (send _ _) as [a|r'] eqn:Hsend; simpl.
    + split; [by destruct (_mapping (self w) !! _)|]. intros r Hr. discriminate Hr.
    + split; [done|]. intros r Hr. injection Hr as <-. by eexists.
Qed.

(** *** Unmapping a circuit that is not mapped *)

(** C3, as amended: with both ports allocated and the source key absent from
    the circuit table, [unmap_vp] and [unmap_pvc] first send their delete
    command, one command; when the channel acknowledges it, the removal raises
    the key error of the source key, and when it does not, the protocol error
    is raised. In both cases the circuit table and the port table are as
    before. *)
Theorem unmap_absent_key_after_send (w : World) (hv : Hypervisor)
        (port1 vpi1 vci1 port2 vpi2 vci2 : Z) (nio1 nio2 : nio_ref) :
  _hypervisor (self w) = Some hv →
  _nios (self w) !! port1 = Some nio1 →
  _nios (self w) !! port2 = Some nio2 →
  (_mapping (self w) !! [port1; vpi1] = None →
   ∃ res w',
     unmap_vp port1 vpi1 port2 vpi2 w = (res, w')
     ∧ commands_sent w' = (hv_sent hv ++ [vp_command "delete_vpc" w nio1 vpi1 nio2 vpi2])%list
     ∧ _mapping (self w') = _mapping (self w)
     ∧ _nios (self w') = _nios (self w)
     ∧ res = match send (hv_sent hv) (vp_command "delete_vpc" w nio1 vpi1 nio2 vpi2) with
             | inl _ => Raise (CircuitNotMappedError [port1; vpi1])
             | inr r => Raise (ProtocolError (vp_command "delete_vpc" w nio1 vpi1 nio2 vpi2) r)
             end)
  ∧ (_mapping (self w) !! [port1; vpi1; vci1] = None →
     ∃ res w',
       unmap_pvc port1 vpi1 vci1 port2 vpi2 vci2 w = (res, w')
       ∧ commands_sent w' =
           (hv_sent hv ++ [vc_command "delete_vcc" w nio1 vpi1 vci1 nio2 vpi2 vci2])%list
       ∧ _mapping (self w') = _mapping (self w)
       ∧ _nios (self w') = _nios (self w)
       ∧ res = match send (hv_sent hv)
                          (vc_command "delete_vcc" w nio1 vpi1 vci1 nio2 vpi2 vci2) with
               | inl _ => Raise (CircuitNotMappedError [port1; vpi1; vci1])
               | inr r =>
                   Raise (ProtocolError
                            (vc_command "delete_vcc" w nio1 vpi1 vci1 nio2 vpi2 vci2) r)
               end).
Proof.
  intros Hhv H1 H2. split; intros Hkey.
  - rewrite (unmap_vp_run w hv _ _ _ _ nio1 nio2 Hhv H1 H2). simpl. rewrite Hkey.
    destruct (send _ _); by eexists _, _.
  - rewrite (unmap_pvc_run w hv _ _ _ _ _ _ nio1 nio2 Hhv H1 H2). simpl. rewrite Hkey.
    destruct (send _ _); by eexists _, _.
Qed.

(** *** A successful unmap *)

(** C9: with both ports allocated, the source key present and the delete
    command acknowledged, [unmap_vp] (and [unmap_pvc]) succeeds and the circuit
    table afterwards is the one before without the source key: that key is
    gone, every other key, the destination key among them when it differs from
    the source key, has the entry it had, and the port table and the NIO
    objects are as before. *)
Theorem unmap_removes_exactly_source_key (w : World) (hv : Hypervisor)
        (port1 vpi1 vci1 port2 vpi2 vci2 : Z) (nio1 nio2 : nio_ref) :
  _hypervisor (self w) = Some hv →
  _nios (self w) !! port1 = Some nio1 →
  _nios (self w) !! port2 = Some nio2 →
  (is_Some (_mapping (self w) !! [port1; vpi1]) →
   (∃ a, send (hv_sent hv) (vp_command "delete_vpc" w nio1 vpi1 nio2 vpi2) = inl a) →
   ∃ w',
     unmap_vp port1 vpi1 port2 vpi2 w = (Ok tt, w')
     ∧ _mapping (self w') = delete [port1; vpi1] (_mapping (self w))
     ∧ _mapping (self w') !! [port1; vpi1] = None
     ∧ (∀ key, key ≠ [port1; vpi1] → _mapping (self w') !! key = _mapping (self w) !! key)
     ∧ ([port2; vpi2] ≠ [port1; vpi1] →
        _mapping (self w') !! [port2; vpi2] = _mapping (self w) !! [port2; vpi2])
     ∧ _nios (self w') = _nios (self w)
     ∧ nio_objects w' = nio_objects w)
  ∧ (is_Some (_mapping (self w) !! [port1; vpi1; vci1]) →
     (∃ a, send (hv_sent hv) (vc_command "delete_vcc" w nio1 vpi1 vci1 nio2 vpi2 vci2) = inl a) →
     ∃ w',
       unmap_pvc port1 vpi1 vci1 port2 vpi2 vci2 w = (Ok tt, w')
       ∧ _mapping (self w') = delete [port1; vpi1; vci1] (_mapping (self w))
       ∧ _mapping (self w') !! [port1; vpi1; vci1] = None
       ∧ (∀ key, key ≠ [port1; vpi1; vci1] →
                 _mapping (self w') !! key = _mapping (self w) !! key)
       ∧ ([port2; vpi2; vci2] ≠ [port1; vpi1; vci1] →
          _mapping (self w') !! [port2; vpi2; vci2] = _mapping (self w) !! [port2; vpi2; vci2])
       ∧ _nios (self w') = _nios (self w)
       ∧ nio_objects w' = nio_objects w).
Proof.
  intros Hhv H1 H2. split; intros [dst Hkey] [a Hack].
  - rewrite (unmap_vp_run w hv _ _ _ _ nio1 nio2 Hhv H1 H2). simpl.
    rewrite Hack, Hkey. eexists. split; [done|]. simpl.
    split; [done|]. split; [apply lookup_delete_eq|].
    split; [intros key Hne; by apply lookup_delete_ne|].
    split; [intros Hne; by apply lookup_delete_ne|]. done.
  - rewrite (unmap_pvc_run w hv _ _ _ _ _ _ nio1 nio2 Hhv H1 H2). simpl.
    rewrite Hack, Hkey. eexists. split; [done|]. simpl.
    split; [done|]. split; [apply lookup_delete_eq|].
    split; [intros key Hne; by apply lookup_delete_ne|].
    split; [intros Hne; by apply lookup_delete_ne|]. done.
Qed.

(** *** Mapping, then unmapping *)

Lemma map_then_unmap_vp (w : World) (hv : Hypervisor) (port1 vpi1 port2 vpi2 : Z)
      (nio1 nio2 : nio_ref) :
  _hypervisor (self w) = Some hv →
  _nios (self w) !! port1 = Some nio1 →
  _nios (self w) !! port2 = Some nio2 →
  (∀ log cmd, ∃ a, send log cmd = inl a) →
  ∃ w1 w2,
    map_vp port1 vpi1 port2 vpi2 w = (Ok tt, w1)
    ∧ unmap_vp port1 vpi1 port2 vpi2 w1 = (Ok tt, w2)
    ∧ _mapping (self w2) = delete [port1; vpi1] (_mapping (self w)).
Proof.
  intros Hhv H1 H2 Hack.
  rewrite (map_vp_run w hv _ _ _ _ nio1 nio2 Hhv H1 H2). simpl.
  destruct (Hack (hv_sent hv) (vp_command "create_vpc" w nio1 vpi1 nio2 vpi2)) as [a ->].
  eexists. eexists. split; [done|].
  match goal with
  | |- context [unmap_vp _ _ _ _ ?w1] =>
      rewrite (unmap_vp_run w1 (mkHypervisor (hv_sent hv ++ [vp_command "create_vpc" w nio1 vpi1 nio2 vpi2]))
                            _ _ _ _ nio1 nio2 eq_refl H1 H2);
      simpl;
      destruct (Hack (hv_sent hv ++ [vp_command "create_vpc" w nio1 vpi1 nio2 vpi2])%list
                     (vp_command "delete_vpc" w1 nio1 vpi1 nio2 vpi2)) as [a' Ha']
  end.
  simpl in Ha'. rewrite Ha'. rewrite lookup_insert_eq. split; [done|]. simpl.
  apply delete_insert_eq.
Qed.

(** C5, as amended: with ports 1 and 2 allocated and a channel that
    acknowledges every command, [map_vp 1 5 2 7] and then [unmap_vp 1 5 2 7]
    both succeed and leave the circuit table that was there before the map
    call without the key (1, 5): no entry for (1, 5) remains, and the table is
    the one before whenever (1, 5) was not a source key before. *)
Theorem map_unmap_vp_round_trip (w : World) (hv : Hypervisor) :
  _hypervisor (self w) = Some hv →
  is_Some (_nios (self w) !! 1) →
  is_Some (_nios (self w) !! 2) →
  (∀ log cmd, ∃ a, send log cmd = inl a) →
  ∃ w1 w2,
    map_vp 1 5 2 7 w = (Ok tt, w1)
    ∧ unmap_vp 1 5 2 7 w1 = (Ok tt, w2)
    ∧ _mapping (self w2) = delete [1; 5] (_mapping (self w))
    ∧ _mapping (self w2) !! [1; 5] = None
    ∧ (_mapping (self w) !! [1; 5] = None → _mapping (self w2) = _mapping (self w)).
Proof.
  intros Hhv [nio1 H1] [nio2 H2] Hack.
  destruct (map_then_unmap_vp w hv 1 5 2 7 nio1 nio2 Hhv H1 H2 Hack)
    as (w1 & w2 & Hmap & Hunmap & Htable).
  exists w1, w2. rewrite Htable.
  split; [done|]. split; [done|]. split; [done|].
  split; [apply lookup_delete_eq|]. intros Hfree. by apply delete_id.
Qed.

(** *** Capture *)

Lemma normalize_strips_prefix (data_link_type rest : string) :
  Py.lower data_link_type = "dlt_" +:+ rest →
  normalize_data_link_type data_link_type = rest.
Proof.
  intros Hlow. unfold normalize_data_link_type. rewrite Hlow. simpl.
  by destruct rest.
Qed.

Lemma normalize_without_prefix (data_link_type : string) :
  Py.startswith (Py.lower data_link_type) "dlt_" = false →
  normalize_data_link_type data_link_type = Py.lower data_link_type.
Proof.
  intros Hno. unfold normalize_data_link_type. by rewrite Hno.
Qed.

Lemma start_capture_run (w : World) (port_number : Z) (output_file data_link_type : string)
      (nio : nio_ref) :
  _nios (self w) !! port_number = Some nio →
  start_capture port_number output_file data_link_type w =
    if Py.is_not_None (input_filter (nio_objects w nio)).1
       && Py.is_not_None (output_filter (nio_objects w nio)).1
    then (Raise (FilterAlreadyAppliedError port_number), w)
    else (invoke (BindFilter nio "both" "capture") ;;
          invoke (SetupFilter nio "both"
                    (normalize_data_link_type data_link_type +:+ " " +:+ output_file)))%py w.
Proof.
  intros Hp. open_world w. py_unfold.
  rewrite (in_dict_Some _ _ _ Hp). simpl. rewrite Hp. simpl.
  by destruct (_ && _).
Qed.

(** C7: on an allocated port whose NIO passes the filter check and whose
    [bind_filter] succeeds, [start_capture] invokes [bind_filter] and then
    [setup_filter] with the normalized data link type, a blank and the output
    file; the normalized type is the lower-cased one, without its first four
    characters when the lower-cased one starts with [dlt_]. The default
    [DLT_ATM_RFC1483] is passed as [atm_rfc1483]. *)
Theorem start_capture_normalizes (w : World) (port_number : Z)
        (output_file data_link_type : string) (nio : nio_ref) :
  _nios (self w) !! port_number = Some nio →
  Py.is_not_None (input_filter (nio_objects w nio)).1
    && Py.is_not_None (output_filter (nio_objects w nio)).1 = false →
  (bind_filter (nio_objects w nio) "both" "capture").1 = true →
  nio_calls (start_capture port_number output_file data_link_type w).2 =
    (nio_calls w ++
       [BindFilter nio "both" "capture";
        SetupFilter nio "both"
                    (normalize_data_link_type data_link_type +:+ " " +:+ output_file)])%list
  ∧ (∀ rest, Py.lower data_link_type = "dlt_" +:+ rest →
             normalize_data_link_type data_link_type = rest)
  ∧ (Py.startswith (Py.lower data_link_type) "dlt_" = false →
     normalize_data_link_type data_link_type = Py.lower data_link_type)
  ∧ normalize_data_link_type default_data_link_type = "atm_rfc1483".
Proof.
  intros Hp Hfree Hbind.
  split; [|split; [apply normalize_strips_prefix|split; [apply normalize_without_prefix|done]]].
  rewrite (start_capture_run w _ _ _ nio Hp), Hfree.
  unfold bind, invoke. simpl.
  destruct (bind_filter _ _ _) as [ok o]. simpl in Hbind. subst ok. simpl.
  destruct (setup_filter _ _ _) as [ok' o']. simpl.
  by rewrite <- app_assoc.
Qed.

Lemma start_capture_both_filters (w : World) (port_number : Z)
      (output_file data_link_type : string) (nio : nio_ref) :
  _nios (self w) !! port_number = Some nio →
  Py.is_not_None (input_filter (nio_objects w nio)).1 = true →
  Py.is_not_None (output_filter (nio_objects w nio)).1 = true →
  start_capture port_number output_file data_link_type w =
    (Raise (FilterAlreadyAppliedError port_number), w).
Proof.
  intros Hp Hin Hout. by rewrite (start_capture_run w _ _ _ nio Hp), Hin, Hout.
Qed.

Lemma start_capture_one_filter_binds (w : World) (port_number : Z)
      (output_file data_link_type : string) (nio : nio_ref) :
  _nios (self w) !! port_number = Some nio →
  Py.is_not_None (input_filter (nio_objects w nio)).1
    && Py.is_not_None (output_filter (nio_objects w nio)).1 = false →
  ∃ rest,
    nio_calls (start_capture port_number output_file data_link_type w).2 =
      (nio_calls w ++ BindFilter nio "both" "capture" :: rest)%list.
Proof.
  intros Hp Hfree. rewrite (start_capture_run w _ _ _ nio Hp), Hfree.
  unfold bind, invoke. simpl.
  destruct (bind_filter _ _ _) as [[] o]; simpl.
  - destruct (setup_filter _ _ _) as [ok' o']. simpl.
    eexists. by rewrite <- app_assoc.
  - by exists [].
Qed.

(** C10: whether they succeed or raise, [start_capture] and [stop_capture]
    leave the device as it was, so the port table binds every port to the NIO
    it was bound to and the circuit table has the entries it had; of the NIO
    objects, only the one bound to the port of the call can differ. *)
Theorem capture_keeps_tables (w : World) (port_number : Z)
        (output_file data_link_type : string) :
  (self (start_capture port_number output_file data_link_type w).2 = self w
   ∧ _nios (self (start_capture port_number output_file data_link_type w).2) = _nios (self w)
   ∧ _mapping (self (start_capture port_number output_file data_link_type w).2)
     = _mapping (self w)
   ∧ ∀ nio, _nios (self w) !! port_number ≠ Some nio →
            nio_objects (start_capture port_number output_file data_link_type w).2 nio
            = nio_objects w nio)
  ∧ (self (stop_capture port_number w).2 = self w
     ∧ _nios (self (stop_capture port_number w).2) = _nios (self w)
     ∧ _mapping (self (stop_capture port_number w).2) = _mapping (self w)
     ∧ ∀ nio, _nios (self w) !! port_number ≠ Some nio →
              nio_objects (stop_capture port_number w).2 nio = nio_objects w nio).
Proof.
  assert (Hstart : self (start_capture port_number output_file data_link_type w).2 = self w
          ∧ ∀ nio, _nios (self w) !! port_number ≠ Some nio →
                   nio_objects (start_capture port_number output_file data_link_type w).2 nio
                   = nio_objects w nio).
  { destruct (_nios (self w) !! port_number) as [target|] eqn:Hp.
    - rewrite (start_capture_run w _ _ _ target Hp).
      destruct (_ && _); [done|].
      unfold bind, invoke. simpl.
      destruct (bind_filter _ _ _) as [[] o]; simpl.
      + destruct (setup_filter _ _ _) as [[] o']; simpl;
          (split; [done|]; intros nio Hne;
           rewrite !fn_lookup_insert_ne; [done|congruence|congruence]).
      + split; [done|]. intros nio Hne. rewrite fn_lookup_insert_ne; [done|congruence].
    - open_world w. py_unfold. by rewrite (in_dict_None _ _ Hp). }
  assert (Hstop : self (stop_capture port_number w).2 = self w
          ∧ ∀ nio, _nios (self w) !! port_number ≠ Some nio →
                   nio_objects (stop_capture port_number w).2 nio = nio_objects w nio).
  { destruct (_nios (self w) !! port_number) as [target|] eqn:Hp.
    - open_world w. py_unfold. rewrite (in_dict_Some _ _ _ Hp). simpl. rewrite Hp. simpl.
      unfold invoke. simpl.
      destruct (unbind_filter _ _) as [[] o]; simpl;
        (split; [done|]; intros nio Hne; rewrite fn_lookup_insert_ne; [done|congruence]).
    - open_world w. py_unfold. by rewrite (in_dict_None _ _ Hp). }
  destruct Hstart as [Hs1 Hs2], Hstop as [Ht1 Ht2].
  split.
  - rewrite Hs1. auto.
  - rewrite Ht1. auto.
Qed.

(** *** What an error carries *)

Lemma in_dict_lookup `{Countable K} {V} (k : K) (d : gmap K V) :
  Py.in_dict k d = true → d !! k = None → False.
Proof.
  intros Hin Hk. by rewrite (in_dict_None _ _ Hk) in Hin.
Qed.

Ltac split_run H :=
  repeat match type of H with
         | context [Py.in_dict ?k ?d] => destruct (Py.in_dict k d) eqn:?; simpl in H
         | context [@lookup _ _ (gmap _ _) _ ?k ?d] => destruct (d !! k) eqn:?; simpl in H
         | context [send ?l ?c] => destruct (send l c) eqn:?; simpl in H
         | context [bind_filter ?o ?d ?f] => destruct (bind_filter o d f) as [[] ?] eqn:?; simpl in H
         | context [setup_filter ?o ?d ?f] => destruct (setup_filter o d f) as [[] ?] eqn:?; simpl in H
         | context [unbind_filter ?o ?d] => destruct (unbind_filter o d) as [[] ?] eqn:?; simpl in H
         | context [(?a && ?b)%bool] => destruct (a && b)%bool eqn:?; simpl in H
         end.

(** C6, as amended: an error that the module itself raises names one port
    argument of the call and nothing else: the message is [Port p isn't free],
    [Port p is not allocated] or [Port p has already a filter applied]. A
    circuit that is not mapped surfaces as the key error of the source key of
    the call. Neither carries the name or the identifier of the device. *)
Theorem raised_error_names_port_only (c : call) (w w' : World) (e : exn) :
  run c w = (Raise e, w') →
  match e with
  | DynamipsError msg =>
      ∃ port, port ∈ ports_of c
              ∧ (msg = "Port " +:+ Py.str_int port +:+ " isn't free"
                 ∨ msg = "Port " +:+ Py.str_int port +:+ " is not allocated"
                 ∨ msg = "Port " +:+ Py.str_int port +:+ " has already a filter applied")
  | KeyError key => ∃ circuit, key = KTuple circuit ∧ source_key c = Some circuit
  | AttributeError _ => _hypervisor (self w) = None
  | ProtocolError _ _ | NIOError _ => True
  end.
Proof.
  intros Hrun. open_world w.
  destruct c; revert Hrun; py_unfold; unfold invoke; simpl; intros Hrun;
    try destruct hypervisor as [hv|]; simpl in Hrun;
    split_run Hrun;
    try match goal with
        | Hin : Py.in_dict ?k ?d = true, Hk : ?d !! ?k = None |- _ =>
            exfalso; exact (in_dict_lookup k d Hin Hk)
        end;
    try discriminate Hrun;
    injection Hrun as <- <-; simpl; try done.
  all: try (eexists; split; [|eauto]; set_solver).
  all: try (eexists; split; [done|reflexivity]).
Qed.

End Properties.

(** ** The properties on the switch [SW1] *)

Lemma sw1_port9 (circuits : gmap (list Z) (list Z)) :
  ¬ is_Some (_nios (self (sw1 circuits)) !! 9).
Proof. intros [nio Hnio]. discriminate Hnio. Defined.

Lemma sw1_ports_allocated (circuits : gmap (list Z) (list Z)) :
  ports_allocated (MapVp 1 5 2 7) (sw1 circuits).
Proof.
  unfold ports_allocated. simpl.
  apply Forall_cons. split; [by exists 1%N|].
  apply Forall_cons. split; [by exists 2%N|]. apply Forall_nil_2.
Defined.

Lemma ack_channel_acknowledges :
  ∀ log cmd, ∃ a, @send ack_channel log cmd = inl a.
Proof. intros log cmd. by exists "100-OK". Defined.

Lemma send_failure_keeps_local_state_witness :
  issues_command (MapVp 1 5 2 7) = true
  ∧ _hypervisor (self (sw1 ∅)) = Some (mkHypervisor [])
  ∧ ports_allocated (MapVp 1 5 2 7) (sw1 ∅)
  ∧ ∃ cmd,
      commands_sent (@run down_channel plain_filters (MapVp 1 5 2 7) (sw1 ∅)).2 = [cmd]
      ∧ ∀ r, @send down_channel [] cmd = inr r →
             ∃ w', @run down_channel plain_filters (MapVp 1 5 2 7) (sw1 ∅)
                   = (Raise (ProtocolError cmd r), w')
                   ∧ _name (self w') = "SW1"
                   ∧ _id (self w') = "9f2c"
                   ∧ _nios (self w') = _nios (self (sw1 ∅))
                   ∧ _mapping (self w') = ∅.
Proof.
  split; [reflexivity|]. split; [reflexivity|]. split; [apply sw1_ports_allocated|].
  exact (@send_failure_keeps_local_state down_channel plain_filters (MapVp 1 5 2 7) (sw1 ∅)
           (mkHypervisor []) eq_refl eq_refl (sw1_ports_allocated ∅)).
Defined.

Lemma map_with_unallocated_port_witness :
  (¬ is_Some (_nios (self (sw1 ∅)) !! 1) ∨ ¬ is_Some (_nios (self (sw1 ∅)) !! 9))
  ∧ ∃ p w', (p = 1 ∨ p = 9)
            ∧ ¬ is_Some (_nios (self (sw1 ∅)) !! p)
            ∧ @map_vp ack_channel 1 5 9 7 (sw1 ∅) = (Raise (PortNotAllocatedError p), w')
            ∧ commands_sent w' = commands_sent (sw1 ∅)
            ∧ _nios (self w') = _nios (self (sw1 ∅))
            ∧ _mapping (self w') = _mapping (self (sw1 ∅)).
Proof.
  split; [right; apply sw1_port9|].
  exact (proj1 (@map_with_unallocated_port ack_channel (sw1 ∅) 1 5 100 9 7 200
                  (or_intror (sw1_port9 ∅)))).
Defined.

(** C3 as the specification states it: the switch [SW1] with no circuit, whose
    ports 1 and 2 are allocated, sends the delete command before the missing
    key is noticed. *)
Lemma unmap_absent_key_sends_command :
  ¬ (∀ (channel : Channel) (w : World) (port1 vpi1 port2 vpi2 : Z),
        is_Some (_nios (self w) !! port1) →
        is_Some (_nios (self w) !! port2) →
        _mapping (self w) !! [port1; vpi1] = None →
        ∃ w', unmap_vp port1 vpi1 port2 vpi2 w
              = (Raise (CircuitNotMappedError [port1; vpi1]), w')
              ∧ commands_sent w' = commands_sent w
              ∧ _mapping (self w') = _mapping (self w)).
Proof.
  intros Hclaim.
  destruct (Hclaim ack_channel (sw1 ∅) 1 5 2 7) as (w' & Hrun & Hsent & _).
  - by exists 1%N.
  - by exists 2%N.
  - reflexivity.
  - apply (f_equal snd) in Hrun. simpl in Hrun. subst w'.
    vm_compute in Hsent. discriminate Hsent.
Qed.

Lemma unmap_absent_key_after_send_witness :
  _hypervisor (self (sw1 ∅)) = Some (mkHypervisor [])
  ∧ _nios (self (sw1 ∅)) !! 1 = Some 1%N
  ∧ _nios (self (sw1 ∅)) !! 2 = Some 2%N
  ∧ ∃ res w',
      @unmap_vp ack_channel 1 5 2 7 (sw1 ∅) = (res, w')
      ∧ commands_sent w' = [vp_command "delete_vpc" (sw1 ∅) 1%N 5 2%N 7]
      ∧ _mapping (self w') = ∅
      ∧ _nios (self w') = _nios (self (sw1 ∅))
      ∧ res = Raise (CircuitNotMappedError [1; 5]).
Proof.
  split; [reflexivity|]. split; [reflexivity|]. split; [reflexivity|].
  exact (proj1 (@unmap_absent_key_after_send ack_channel (sw1 ∅) (mkHypervisor [])
                  1 5 100 2 7 200 1%N 2%N eq_refl eq_refl eq_refl) eq_refl).
Defined.

(** C5 as the specification states it: when the key (1, 5) is mapped before
    the map call, the round trip removes that older circuit. *)
Lemma map_unmap_vp_drops_older_circuit :
  ¬ (∀ (channel : Channel) (w : World),
        is_Some (_hypervisor (self w)) →
        is_Some (_nios (self w) !! 1) →
        is_Some (_nios (self w) !! 2) →
        (∀ log cmd, ∃ a, send log cmd = inl a) →
        ∃ w1 w2,
          map_vp 1 5 2 7 w = (Ok tt, w1)
          ∧ unmap_vp 1 5 2 7 w1 = (Ok tt, w2)
          ∧ _mapping (self w2) = _mapping (self w)).
Proof.
  intros Hclaim.
  destruct (Hclaim ack_channel (sw1 {[ [1; 5] := [2; 9] ]})) as (w1 & w2 & Hmap & Hunmap & Htable).
  - by eexists.
  - by exists 1%N.
  - by exists 2%N.
  - apply ack_channel_acknowledges.
  - apply (f_equal snd) in Hmap. simpl in Hmap. subst w1.
    apply (f_equal snd) in Hunmap. simpl in Hunmap. subst w2.
    apply (f_equal (fun m => m !! [1; 5])) in Htable.
    vm_compute in Htable. discriminate Htable.
Qed.

Lemma map_unmap_vp_round_trip_witness :
  _hypervisor (self (sw1 ∅)) = Some (mkHypervisor [])
  ∧ is_Some (_nios (self (sw1 ∅)) !! 1)
  ∧ is_Some (_nios (self (sw1 ∅)) !! 2)
  ∧ (∀ log cmd, ∃ a, @send ack_channel log cmd = inl a)
  ∧ ∃ w1 w2,
      @map_vp ack_channel 1 5 2 7 (sw1 ∅) = (Ok tt, w1)
      ∧ @unmap_vp ack_channel 1 5 2 7 w1 = (Ok tt, w2)
      ∧ _mapping (self w2) = delete [1; 5] (_mapping (self (sw1 ∅)))
      ∧ _mapping (self w2) !! [1; 5] = None
      ∧ (_mapping (self (sw1 ∅)) !! [1; 5] = None →
         _mapping (self w2) = _mapping (self (sw1 ∅))).
Proof.
  split; [reflexivity|].
  split; [exact (ex_intro _ 1%N eq_refl)|].
  split; [exact (ex_intro _ 2%N eq_refl)|].
  split; [exact ack_channel_acknowledges|].
  exact (@map_unmap_vp_round_trip ack_channel (sw1 ∅) (mkHypervisor []) eq_refl
           (ex_intro _ 1%N eq_refl) (ex_intro _ 2%N eq_refl) ack_channel_acknowledges).
Defined.

(** C6 as the specification states it: the message of the port conflict on
    [SW1] holds neither the name nor the identifier of the switch. *)
Lemma port_conflict_message_omits_device :
  ¬ (∀ (channel : Channel) (filters : NIOFilters) (c : call) (w w' : World) (msg : string),
        run c w = (Raise (DynamipsError msg), w') →
        Py.contains msg (_name (self w)) = true
        ∧ Py.contains msg (_id (self w)) = true).
Proof.
  intros Hclaim.
  destruct (Hclaim ack_channel plain_filters (AddNio 7%N 1) (sw1 ∅) (sw1 ∅) "Port 1 isn't free")
    as [Hname _].
  - reflexivity.
  - vm_compute in Hname. discriminate Hname.
Qed.

Lemma raised_error_names_port_only_witness :
  @run ack_channel plain_filters (AddNio 7%N 1) (sw1 ∅)
  = (Raise (DynamipsError "Port 1 isn't free"), sw1 ∅)
  ∧ ∃ port, port ∈ [1]
            ∧ ("Port 1 isn't free" = "Port " +:+ Py.str_int port +:+ " isn't free"
               ∨ "Port 1 isn't free" = "Port " +:+ Py.str_int port +:+ " is not allocated"
               ∨ "Port 1 isn't free"
                 = "Port " +:+ Py.str_int port +:+ " has already a filter applied").
Proof.
  split; [reflexivity|].
  exact (@raised_error_names_port_only ack_channel plain_filters (AddNio 7%N 1)
           (sw1 ∅) (sw1 ∅) (DynamipsError "Port 1 isn't free") eq_refl).
Defined.

Lemma start_capture_normalizes_witness :
  _nios (self (sw1 ∅)) !! 3 = None
  ∧ _nios (self (sw1 ∅)) !! 1 = Some 1%N
  ∧ Py.is_not_None (input_filter (nio_objects (sw1 ∅) 1%N)).1
      && Py.is_not_None (output_filter (nio_objects (sw1 ∅) 1%N)).1 = false
  ∧ (@bind_filter plain_filters (nio_objects (sw1 ∅) 1%N) "both" "capture").1 = true
  ∧ nio_calls (@start_capture plain_filters 1 "/tmp/out.pcap" "DLT_ATM_RFC1483" (sw1 ∅)).2
    = [BindFilter 1%N "both" "capture";
       SetupFilter 1%N "both"
                   (normalize_data_link_type "DLT_ATM_RFC1483" +:+ " " +:+ "/tmp/out.pcap")].
Proof.
  split; [reflexivity|]. split; [reflexivity|]. split; [reflexivity|]. split; [reflexivity|].
  exact (proj1 (@start_capture_normalizes plain_filters (sw1 ∅) 1 "/tmp/out.pcap"
                  "DLT_ATM_RFC1483" 1%N eq_refl eq_refl eq_refl)).
Defined.

Lemma unmap_removes_exactly_source_key_witness :
  _hypervisor (self (sw1 both_ways)) = Some (mkHypervisor [])
  ∧ _nios (self (sw1 both_ways)) !! 1 = Some 1%N
  ∧ _nios (self (sw1 both_ways)) !! 2 = Some 2%N
  ∧ ∃ w',
      @unmap_vp ack_channel 1 5 2 7 (sw1 both_ways) = (Ok tt, w')
      ∧ _mapping (self w') = delete [1; 5] (_mapping (self (sw1 both_ways)))
      ∧ _mapping (self w') !! [1; 5] = None
      ∧ (∀ key, key ≠ [1; 5] →
                _mapping (self w') !! key = _mapping (self (sw1 both_ways)) !! key)
      ∧ ([2; 7] ≠ [1; 5] →
         _mapping (self w') !! [2; 7] = _mapping (self (sw1 both_ways)) !! [2; 7])
      ∧ _nios (self w') = _nios (self (sw1 both_ways))
      ∧ nio_objects w' = nio_objects (sw1 both_ways).
Proof.
  split; [reflexivity|]. split; [reflexivity|]. split; [reflexivity|].
  apply (proj1 (@unmap_removes_exactly_source_key ack_channel (sw1 both_ways) (mkHypervisor [])
                  1 5 100 2 7 200 1%N 2%N eq_refl eq_refl eq_refl)).
  - exists [2; 7]. reflexivity.
  - exists "100-OK". reflexivity.
Defined.

(** C2 on the code: the NIO of port 1 has a filter on its input direction and
    none on its output direction; [start_capture] does not raise, binds the
    capture filter in both directions and replaces the input filter. *)
Lemma start_capture_input_filter_only :
  _nios (self sw1_input_filter) !! 1 = Some 1%N
  ∧ (input_filter (nio_objects sw1_input_filter 1%N)).1 = Some "freq_drop"
  ∧ (output_filter (nio_objects sw1_input_filter 1%N)).1 = None
  ∧ (@start_capture plain_filters 1 "/tmp/out.pcap" default_data_link_type sw1_input_filter).1
    = Ok tt
  ∧ nio_calls (@start_capture plain_filters 1 "/tmp/out.pcap" default_data_link_type
                              sw1_input_filter).2
    = [BindFilter 1%N "both" "capture";
       SetupFilter 1%N "both" "atm_rfc1483 /tmp/out.pcap"]
  ∧ input_filter (nio_objects (@start_capture plain_filters 1 "/tmp/out.pcap"
                                              default_data_link_type sw1_input_filter).2 1%N)
    = (Some "capture", Some "atm_rfc1483 /tmp/out.pcap").
Proof.
  repeat split; reflexivity.
Qed.

Lemma failing_port_operations_keep_table_witness :
  (_nios (self (sw1 ∅)) !! 1 = Some 1%N
   ∧ ∃ w', add_nio 7%N 1 (sw1 ∅) = (Raise (PortConflictError 1), w')
           ∧ _nios (self w') = _nios (self (sw1 ∅))
           ∧ _nios (self w') !! 1 = Some 1%N)
  ∧ (_nios (self (sw1 ∅)) !! 9 = None
     ∧ ∃ w', remove_nio 9 (sw1 ∅) = (Raise (PortNotAllocatedError 9), w')
             ∧ _nios (self w') = _nios (self (sw1 ∅))).
Proof.
  split.
  - split; [reflexivity|].
    exact (proj1 (failing_port_operations_keep_table (sw1 ∅) 1) 1%N 7%N eq_refl).
  - split; [reflexivity|].
    exact (proj2 (failing_port_operations_keep_table (sw1 ∅) 9) eq_refl).
Defined.

Lemma capture_keeps_tables_witness :
  _nios (self (sw1 both_ways)) !! 1 ≠ Some 2%N
  ∧ (@start_capture plain_filters 1 "/tmp/out.pcap" default_data_link_type (sw1 both_ways)).1
    = Ok tt
  ∧ _mapping (self (@start_capture plain_filters 1 "/tmp/out.pcap" default_data_link_type
                                   (sw1 both_ways)).2) = both_ways
  ∧ nio_objects (@start_capture plain_filters 1 "/tmp/out.pcap" default_data_link_type
                                (sw1 both_ways)).2 2%N
    = nio_objects (sw1 both_ways) 2%N
  ∧ nio_objects (@stop_capture plain_filters 1 (sw1 both_ways)).2 2%N
    = nio_objects (sw1 both_ways) 2%N.
Proof.
  assert (Hother : _nios (self (sw1 both_ways)) !! 1 ≠ Some 2%N) by (intros Heq; discriminate Heq).
  pose proof (@capture_keeps_tables plain_filters (sw1 both_ways) 1 "/tmp/out.pcap"
                default_data_link_type) as [(_ & _ & Hmap & Hstart) (_ & _ & _ & Hstop)].
  split; [exact Hother|]. split; [reflexivity|]. split; [exact Hmap|].
  split; [exact (Hstart 2%N Hother)|exact (Hstop 2%N Hother)].
Defined.

(** ** Further properties of the port table *)

Lemma has_port_run (w : World) (port : Z) :
  has_port port w = (Ok (Py.in_dict port (_nios (self w))), w).
Proof.
  open_world w. py_unfold. by destruct (Py.in_dict port ports).
Qed.

Lemma remove_nio_run (w : World) (p : Z) (nio : nio_ref) :
  _nios (self w) !! p = Some nio →
  remove_nio p w =
    (Ok nio, set_self (mkATMSwitch (_name (self w)) (_id (self w)) (_hypervisor (self w))
                                   (delete p (_nios (self w))) (_mapping (self w))) w).
Proof.
  intros Hp. open_world w. py_unfold.
  rewrite (in_dict_Some _ _ _ Hp). simpl. by rewrite Hp.
Qed.

(** X1: [add_nio] on a free port binds the NIO to it and does nothing else:
    [has_port] then answers [True] for that port and what it answered before
    for every other port; the circuit table, the commands sent to the
    hypervisor and the NIO objects are as before. *)
Theorem add_nio_binds_port (w : World) (nio : nio_ref) (p : Z) :
  _nios (self w) !! p = None →
  ∃ w', add_nio nio p w = (Ok tt, w')
        ∧ _nios (self w') = <[p := nio]> (_nios (self w))
        ∧ has_port p w' = (Ok true, w')
        ∧ (∀ q, q ≠ p → (has_port q w').1 = (has_port q w).1)
        ∧ _mapping (self w') = _mapping (self w)
        ∧ commands_sent w' = commands_sent w
        ∧ nio_objects w' = nio_objects w.
Proof.
  intros Hp. rewrite (add_nio_free w nio p Hp). eexists. split; [done|].
  split; [done|]. split.
  - rewrite has_port_run. simpl.
    by rewrite (in_dict_Some p (<[p:=nio]> (_nios (self w))) nio (lookup_insert_eq _ _ _)).
  - split; [|done]. intros q Hq. rewrite !has_port_run. simpl.
    unfold Py.in_dict. by rewrite lookup_insert_ne.
Qed.

(** X2: on a free port, [add_nio] followed by [remove_nio] gives back the NIO
    that was added and leaves the world exactly as it was. *)
Theorem add_remove_round_trip (w : World) (nio : nio_ref) (p : Z) :
  _nios (self w) !! p = None →
  ∃ w1, add_nio nio p w = (Ok tt, w1) ∧ remove_nio p w1 = (Ok nio, w).
Proof.
  intros Hp. rewrite (add_nio_free w nio p Hp). eexists. split; [done|].
  rewrite (remove_nio_run _ p nio); [|apply lookup_insert_eq].
  open_world w. unfold set_self. simpl. by rewrite (delete_insert_id _ _ _ Hp).
Qed.

(** X3: [remove_nio] on a bound port returns the NIO that was bound, removes
    that port and no other, and touches nothing else: the circuit table keeps
    every entry, also the circuits from or to the removed port, no command is
    sent and the NIO object is not called. *)
Theorem remove_nio_leaves_circuits (w : World) (nio : nio_ref) (p : Z) :
  _nios (self w) !! p = Some nio →
  ∃ w', remove_nio p w = (Ok nio, w')
        ∧ _nios (self w') = delete p (_nios (self w))
        ∧ has_port p w' = (Ok false, w')
        ∧ (∀ q, q ≠ p → _nios (self w') !! q = _nios (self w) !! q)
        ∧ _mapping (self w') = _mapping (self w)
        ∧ commands_sent w' = commands_sent w
        ∧ nio_objects w' = nio_objects w
        ∧ nio_calls w' = nio_calls w.
Proof.
  intros Hp. rewrite (remove_nio_run w p nio Hp). eexists. split; [done|].
  split; [done|]. split.
  - rewrite has_port_run. simpl.
    by rewrite (in_dict_None p (delete p (_nios (self w))) (lookup_delete_eq _ _)).
  - split; [|done]. intros q Hq. simpl. by apply lookup_delete_ne.
Qed.

Section MoreProperties.

Context {channel : Channel} {filters : NIOFilters}.

(** X4: once the NIO of its source port is removed, a circuit stays in the
    table and can no longer be unmapped: [unmap_vp] fails on the port check,
    before any command. *)
Theorem dangling_circuit_cannot_be_unmapped (w : World) (nio : nio_ref)
        (port1 vpi1 port2 vpi2 : Z) (dst : list Z) :
  _nios (self w) !! port1 = Some nio →
  _mapping (self w) !! [port1; vpi1] = Some dst →
  ∃ w1, remove_nio port1 w = (Ok nio, w1)
        ∧ _mapping (self w1) !! [port1; vpi1] = Some dst
        ∧ unmap_vp port1 vpi1 port2 vpi2 w1 = (Raise (PortNotAllocatedError port1), w1).
Proof.
  intros Hp Hkey. rewrite (remove_nio_run w port1 nio Hp). eexists. split; [done|].
  split; [done|].
  open_world w. py_unfold.
  by rewrite (in_dict_None port1 (delete port1 ports) (lookup_delete_eq _ _)).
Qed.

(** X5: [unmap_vp] and [unmap_pvc] check the two ports before anything else:
    with a port that has no NIO they raise the port-not-allocated error of the
    first such port and leave the world as it was, whether the circuit is
    mapped or not. *)
Theorem unmap_with_unallocated_port (w : World) (port1 vpi1 vci1 port2 vpi2 vci2 : Z) :
  ¬ is_Some (_nios (self w) !! port1) ∨ ¬ is_Some (_nios (self w) !! port2) →
  ∃ p, (p = port1 ∨ p = port2)
       ∧ ¬ is_Some (_nios (self w) !! p)
       ∧ (¬ is_Some (_nios (self w) !! port1) → p = port1)
       ∧ unmap_vp port1 vpi1 port2 vpi2 w = (Raise (PortNotAllocatedError p), w)
       ∧ unmap_pvc port1 vpi1 vci1 port2 vpi2 vci2 w = (Raise (PortNotAllocatedError p), w).
Proof.
  intros Hp. open_world w. py_unfold.
  destruct (ports !! port1) as [nio1|] eqn:H1.
  - rewrite (in_dict_Some _ _ _ H1). simpl.
    destruct Hp as [Hp|Hp]; [by destruct Hp; exists nio1|].
    rewrite (in_dict_false _ _ Hp). simpl. exists port2.
    split; [by right|]. split; [done|]. split; [|done].
    intros Hfree. destruct Hfree. by exists nio1.
  - rewrite (in_dict_None _ _ H1). simpl. exists port1.
    split; [by left|]. split; [rewrite H1; by intros [nio Hnio]|]. done.
Qed.

(** ** Further properties of the circuit table *)

Ltac acknowledged Hack :=
  match goal with
  | |- context [send ?l ?c] =>
      let a := fresh "a" in
      let Ha := fresh "Ha" in
      destruct (Hack l c) as [a Ha]; rewrite Ha; clear Ha
  end.

(** X6: with both ports allocated and the command acknowledged, [map_vp]
    sends the one command [atmsw create_vpc "name" nio1 vpi1 nio2 vpi2], with
    the NIOs in their string form, and then stores the destination under the
    source key, over whatever was stored there; no other key changes, in
    particular no circuit back is created, and the port table and the name
    are as before. *)
Theorem map_vp_records_circuit (w : World) (hv : Hypervisor) (port1 vpi1 port2 vpi2 : Z)
        (nio1 nio2 : nio_ref) :
  _hypervisor (self w) = Some hv →
  _nios (self w) !! port1 = Some nio1 →
  _nios (self w) !! port2 = Some nio2 →
  (∃ a, send (hv_sent hv) (vp_command "create_vpc" w nio1 vpi1 nio2 vpi2) = inl a) →
  ∃ w', map_vp port1 vpi1 port2 vpi2 w = (Ok tt, w')
        ∧ _mapping (self w') !! [port1; vpi1] = Some [port2; vpi2]
        ∧ (∀ key, key ≠ [port1; vpi1] → _mapping (self w') !! key = _mapping (self w) !! key)
        ∧ _nios (self w') = _nios (self w)
        ∧ _name (self w') = _name (self w)
        ∧ nio_objects w' = nio_objects w
        ∧ commands_sent w' =
            (hv_sent hv ++
               ["atmsw create_vpc " +:+ Py.quoted (_name (self w)) +:+ " "
                  +:+ nio_str (nio_objects w nio1) +:+ " " +:+ Py.str_int vpi1 +:+ " "
                  +:+ nio_str (nio_objects w nio2) +:+ " " +:+ Py.str_int vpi2])%list.
Proof.
  intros Hhv H1 H2 [a Hack].
  rewrite (map_vp_run w hv _ _ _ _ nio1 nio2 Hhv H1 H2). simpl. rewrite Hack.
  eexists. split; [done|]. simpl.
  split; [apply lookup_insert_eq|].
  split; [intros key Hne; by apply lookup_insert_ne|]. done.
Qed.

(** X7: with both ports allocated and the command acknowledged, [map_pvc]
    sends the one command [atmsw create_vcc "name" nio1 vpi1 vci1 nio2 vpi2
    vci2] and then stores the destination triple under the source triple; no
    other key changes, so no virtual path entry, whose key is a pair, is
    touched. *)
Theorem map_pvc_records_circuit (w : World) (hv : Hypervisor)
        (port1 vpi1 vci1 port2 vpi2 vci2 : Z) (nio1 nio2 : nio_ref) :
  _hypervisor (self w) = Some hv →
  _nios (self w) !! port1 = Some nio1 →
  _nios (self w) !! port2 = Some nio2 →
  (∃ a, send (hv_sent hv) (vc_command "create_vcc" w nio1 vpi1 vci1 nio2 vpi2 vci2) = inl a) →
  ∃ w', map_pvc port1 vpi1 vci1 port2 vpi2 vci2 w = (Ok tt, w')
        ∧ _mapping (self w') !! [port1; vpi1; vci1] = Some [port2; vpi2; vci2]
        ∧ (∀ key, key ≠ [port1; vpi1; vci1] →
                  _mapping (self w') !! key = _mapping (self w) !! key)
        ∧ (∀ port vpi, _mapping (self w') !! [port; vpi] = _mapping (self w) !! [port; vpi])
        ∧ _nios (self w') = _nios (self w)
        ∧ commands_sent w' =
            (hv_sent hv ++
               ["atmsw create_vcc " +:+ Py.quoted (_name (self w)) +:+ " "
                  +:+ nio_str (nio_objects w nio1) +:+ " " +:+ Py.str_int vpi1 +:+ " "
                  +:+ Py.str_int vci1 +:+ " "
                  +:+ nio_str (nio_objects w nio2) +:+ " " +:+ Py.str_int vpi2 +:+ " "
                  +:+ Py.str_int vci2])%list.
Proof.
  intros Hhv H1 H2 [a Hack].
  rewrite (map_pvc_run w hv _ _ _ _ _ _ nio1 nio2 Hhv H1 H2). simpl. rewrite Hack.
  eexists. split; [done|]. simpl.
  split; [apply lookup_insert_eq|].
  split; [intros key Hne; by apply lookup_insert_ne|].
  split; [intros port vpi; by apply lookup_insert_ne|]. done.
Qed.

(** X8: with both ports allocated and a channel that acknowledges every
    command, [map_pvc] followed by [unmap_pvc] with the same arguments
    succeeds and leaves the circuit table that was there without the source
    triple: the table before when the triple was not mapped, and every
    virtual path entry as it was. *)
Theorem map_unmap_pvc_round_trip (w : World) (hv : Hypervisor)
        (port1 vpi1 vci1 port2 vpi2 vci2 : Z) (nio1 nio2 : nio_ref) :
  _hypervisor (self w) = Some hv →
  _nios (self w) !! port1 = Some nio1 →
  _nios (self w) !! port2 = Some nio2 →
  (∀ log cmd, ∃ a, send log cmd = inl a) →
  ∃ w1 w2,
    map_pvc port1 vpi1 vci1 port2 vpi2 vci2 w = (Ok tt, w1)
    ∧ unmap_pvc port1 vpi1 vci1 port2 vpi2 vci2 w1 = (Ok tt, w2)
    ∧ _mapping (self w2) = delete [port1; vpi1; vci1] (_mapping (self w))
    ∧ (_mapping (self w) !! [port1; vpi1; vci1] = None →
       _mapping (self w2) = _mapping (self w))
    ∧ (∀ port vpi, _mapping (self w2) !! [port; vpi] = _mapping (self w) !! [port; vpi]).
Proof.
  intros Hhv H1 H2 Hack.
  rewrite (map_pvc_run w hv _ _ _ _ _ _ nio1 nio2 Hhv H1 H2). simpl.
  acknowledged Hack. eexists. eexists. split; [done|].
  match goal with
  | |- context [unmap_pvc _ _ _ _ _ _ ?w1] =>
      rewrite (unmap_pvc_run w1 (mkHypervisor
                                   (hv_sent hv ++
                                      [vc_command "create_vcc" w nio1 vpi1 vci1 nio2 vpi2 vci2]))
                             _ _ _ _ _ _ nio1 nio2 eq_refl H1 H2)
  end.
  simpl. acknowledged Hack. rewrite lookup_insert_eq. split; [done|]. simpl.
  rewrite delete_insert_eq. split; [done|].
  split; [intros Hfree; by apply delete_id|].
  intros port vpi. by apply lookup_delete_ne.
Qed.

(** X9: a mapped circuit that is unmapped and mapped again with the same
    arguments is back in the table, which is then the table before; this
    holds for [unmap_vp] with [map_vp] and for [unmap_pvc] with [map_pvc]. *)
Theorem unmap_then_map_restores (w : World) (hv : Hypervisor)
        (port1 vpi1 vci1 port2 vpi2 vci2 : Z) (nio1 nio2 : nio_ref) :
  _hypervisor (self w) = Some hv →
  _nios (self w) !! port1 = Some nio1 →
  _nios (self w) !! port2 = Some nio2 →
  (∀ log cmd, ∃ a, send log cmd = inl a) →
  (_mapping (self w) !! [port1; vpi1] = Some [port2; vpi2] →
   ∃ w1 w2,
     unmap_vp port1 vpi1 port2 vpi2 w = (Ok tt, w1)
     ∧ map_vp port1 vpi1 port2 vpi2 w1 = (Ok tt, w2)
     ∧ _mapping (self w2) = _mapping (self w))
  ∧ (_mapping (self w) !! [port1; vpi1; vci1] = Some [port2; vpi2; vci2] →
     ∃ w1 w2,
       unmap_pvc port1 vpi1 vci1 port2 vpi2 vci2 w = (Ok tt, w1)
       ∧ map_pvc port1 vpi1 vci1 port2 vpi2 vci2 w1 = (Ok tt, w2)
       ∧ _mapping (self w2) = _mapping (self w)).
Proof.
  intros Hhv H1 H2 Hack. split; intros Hkey.
  - rewrite (unmap_vp_run w hv _ _ _ _ nio1 nio2 Hhv H1 H2). simpl.
    acknowledged Hack. rewrite Hkey. eexists. eexists. split; [done|].
    match goal with
    | |- context [map_vp _ _ _ _ ?w1] =>
        rewrite (map_vp_run w1 (mkHypervisor
                                  (hv_sent hv ++ [vp_command "delete_vpc" w nio1 vpi1 nio2 vpi2]))
                            _ _ _ _ nio1 nio2 eq_refl H1 H2)
    end.
    simpl. acknowledged Hack. split; [done|]. simpl.
    rewrite insert_delete_eq. by apply insert_id.
  - rewrite (unmap_pvc_run w hv _ _ _ _ _ _ nio1 nio2 Hhv H1 H2). simpl.
    acknowledged Hack. rewrite Hkey. eexists. eexists. split; [done|].
    match goal with
    | |- context [map_pvc _ _ _ _ _ _ ?w1] =>
        rewrite (map_pvc_run w1 (mkHypervisor
                                   (hv_sent hv ++
                                      [vc_command "delete_vcc" w nio1 vpi1 vci1 nio2 vpi2 vci2]))
                             _ _ _ _ _ _ nio1 nio2 eq_refl H1 H2)
    end.
    simpl. acknowledged Hack. split; [done|]. simpl.
    rewrite insert_delete_eq. by apply insert_id.
Qed.

(** X10: mapping a source key a second time, to another destination, is not
    refused: both calls succeed, the table holds the second destination, and
    the hypervisor has received two create commands and no delete command for
    the first circuit. *)
Theorem remap_overwrites (w : World) (hv : Hypervisor) (port1 vpi1 port2 vpi2 port3 vpi3 : Z)
        (nio1 nio2 nio3 : nio_ref) :
  _hypervisor (self w) = Some hv →
  _nios (self w) !! port1 = Some nio1 →
  _nios (self w) !! port2 = Some nio2 →
  _nios (self w) !! port3 = Some nio3 →
  (∀ log cmd, ∃ a, send log cmd = inl a) →
  ∃ w1 w2,
    map_vp port1 vpi1 port2 vpi2 w = (Ok tt, w1)
    ∧ map_vp port1 vpi1 port3 vpi3 w1 = (Ok tt, w2)
    ∧ _mapping (self w2) = <[[port1; vpi1] := [port3; vpi3]]> (_mapping (self w))
    ∧ commands_sent w2 =
        (hv_sent hv ++ [vp_command "create_vpc" w nio1 vpi1 nio2 vpi2;
                        vp_command "create_vpc" w nio1 vpi1 nio3 vpi3])%list.
Proof.
  intros Hhv H1 H2 H3 Hack.
  rewrite (map_vp_run w hv _ _ _ _ nio1 nio2 Hhv H1 H2). simpl.
  acknowledged Hack. eexists. eexists. split; [done|].
  match goal with
  | |- context [map_vp _ _ _ _ ?w1] =>
      rewrite (map_vp_run w1 (mkHypervisor
                                (hv_sent hv ++ [vp_command "create_vpc" w nio1 vpi1 nio2 vpi2]))
                          _ _ _ _ nio1 nio3 eq_refl H1 H3)
  end.
  simpl. acknowledged Hack. split; [done|]. simpl.
  split; [apply insert_insert_eq|].
  unfold commands_sent, vp_command. simpl. by rewrite <- app_assoc.
Qed.

(** X11: after a rename that the hypervisor acknowledged, the device carries
    the new name and its next command names the switch by it: the rename
    command holds the old and the new name, the create command that follows
    the new one. The tables are not touched by the rename. *)
Theorem rename_then_map_uses_new_name (w : World) (hv : Hypervisor) (new_name : string)
        (port1 vpi1 port2 vpi2 : Z) (nio1 nio2 : nio_ref) :
  _hypervisor (self w) = Some hv →
  _nios (self w) !! port1 = Some nio1 →
  _nios (self w) !! port2 = Some nio2 →
  (∀ log cmd, ∃ a, send log cmd = inl a) →
  ∃ w1 w2,
    set_name new_name w = (Ok tt, w1)
    ∧ _name (self w1) = new_name
    ∧ _nios (self w1) = _nios (self w)
    ∧ _mapping (self w1) = _mapping (self w)
    ∧ map_vp port1 vpi1 port2 vpi2 w1 = (Ok tt, w2)
    ∧ _name (self w2) = new_name
    ∧ commands_sent w2 =
        (hv_sent hv ++
           ["atm rename " +:+ Py.quoted (_name (self w)) +:+ " " +:+ Py.quoted new_name;
            vpc_command "create_vpc" new_name (nio_str (nio_objects w nio1)) vpi1
                        (nio_str (nio_objects w nio2)) vpi2])%list.
Proof.
  intros Hhv H1 H2 Hack.
  rewrite (set_name_run w hv new_name Hhv). acknowledged Hack.
  eexists. eexists. split; [done|]. simpl.
  split; [done|]. split; [done|]. split; [done|].
  match goal with
  | |- context [map_vp _ _ _ _ ?w1] =>
      rewrite (map_vp_run w1 (mkHypervisor (hv_sent hv ++ [rename_command w new_name]))
                          _ _ _ _ nio1 nio2 eq_refl H1 H2)
  end.
  simpl. acknowledged Hack. split; [done|]. simpl. split; [done|].
  unfold commands_sent, vp_command, rename_command. simpl. by rewrite <- app_assoc.
Qed.

(** X12: a device that has no hypervisor cannot send: an operation that
    issues a command, called with its ports allocated, raises the
    [AttributeError] of the call on [None] and leaves the world as it was. *)
Theorem command_without_hypervisor (c : call) (w : World) :
  issues_command c = true →
  _hypervisor (self w) = None →
  ports_allocated c w →
  ∃ msg, run c w = (Raise (AttributeError msg), w).
Proof.
  intros Hc Hhv Hports.
  destruct c; try discriminate Hc;
    try (destruct (allocated_two w port1 port2 Hports) as (nio1 & nio2 & H1 & H2));
    open_world w; subst hypervisor; py_unfold;
    try (rewrite (in_dict_Some _ _ _ H1), (in_dict_Some _ _ _ H2); simpl;
         rewrite H1; simpl; rewrite H2; simpl);
    by eexists.
Qed.

(** ** What an operation leaves alone *)

Ltac case_run H :=
  repeat match type of H with
         | context [Py.in_dict ?k ?d] => destruct (Py.in_dict k d) eqn:?; simpl in H
         | context [@lookup _ _ (gmap _ _) _ ?k ?d] => destruct (d !! k) eqn:?; simpl in H
         | context [send ?l ?c] => destruct (send l c) eqn:?; simpl in H
         | context [bind_filter ?o ?d ?f] => destruct (bind_filter o d f) as [[] ?] eqn:?; simpl in H
         | context [setup_filter ?o ?d ?f] => destruct (setup_filter o d f) as [[] ?] eqn:?; simpl in H
         | context [unbind_filter ?o ?d] => destruct (unbind_filter o d) as [[] ?] eqn:?; simpl in H
         | context [(?a && ?b)%bool] => destruct (a && b)%bool eqn:?; simpl in H
         end.

Ltac run_cases c w r Hr :=
  remember (run c w) as r eqn:Hr;
  open_world w;
  destruct c; revert Hr; py_unfold; unfold invoke; simpl; intros Hr;
  try match goal with
      | hypervisor : option Hypervisor |- _ => destruct hypervisor as [?|]; simpl in Hr
      end;
  case_run Hr; subst r; simpl.

(** X13: whatever the outcome, an operation changes the circuit table at most
    at its own source key: every other key keeps its entry. Operations other
    than the four circuit operations have no source key and leave the whole
    table as it was. *)
Theorem circuit_table_changes_only_at_source_key (c : call) (w : World) (key : list Z) :
  source_key c ≠ Some key →
  _mapping (self (run c w).2) !! key = _mapping (self w) !! key.
Proof.
  intros Hkey. run_cases c w r Hr; simpl in Hkey; try done.
  all: try (rewrite lookup_insert_ne; [done|congruence]).
  all: try (rewrite lookup_delete_ne; [done|congruence]).
Qed.

(** X14: whatever the outcome, no operation changes the identifier of the
    device, only [set_name] changes its name, and only [add_nio] and
    [remove_nio] change the port table, at their own port. *)
Theorem device_attributes_frame (c : call) (w : World) :
  _id (self (run c w).2) = _id (self w)
  ∧ (is_rename c = false → _name (self (run c w).2) = _name (self w))
  ∧ (∀ p, touches_port c ≠ Some p →
          _nios (self (run c w).2) !! p = _nios (self w) !! p).
Proof.
  run_cases c w r Hr;
    (split; [done|]; split; [try done; intros Hc; discriminate Hc|]);
    intros p Hp; simpl in Hp; try done.
  all: try (rewrite lookup_insert_ne; [done|congruence]).
  all: try (rewrite lookup_delete_ne; [done|congruence]).
Qed.

(** X15: whatever the outcome, an operation sends at most one command to the
    hypervisor, and [has_port], [add_nio], [remove_nio], [start_capture] and
    [stop_capture] send none. *)
Theorem at_most_one_command (c : call) (w : World) :
  (issues_command c = false → commands_sent (run c w).2 = commands_sent w)
  ∧ (commands_sent (run c w).2 = commands_sent w
     ∨ ∃ cmd, commands_sent (run c w).2 = (commands_sent w ++ [cmd])%list).
Proof.
  run_cases c w r Hr; unfold commands_sent; simpl;
    (split; [try done; intros Hc; discriminate Hc|]); eauto.
Qed.

(** X16: an operation other than [start_capture] and [stop_capture] calls no
    NIO capability and leaves every NIO object as it was. *)
Theorem only_capture_calls_nio (c : call) (w : World) :
  captures_port c = None →
  nio_calls (run c w).2 = nio_calls w ∧ nio_objects (run c w).2 = nio_objects w.
Proof.
  intros Hc. run_cases c w r Hr; simpl in Hc; try discriminate Hc; done.
Qed.

(** ** Further properties of the capture *)

(** X17: on a port that has no NIO, [start_capture] and [stop_capture] raise
    the port-not-allocated error; no capability is called and the world is as
    before. *)
Theorem capture_on_unallocated_port (w : World) (port_number : Z)
        (output_file data_link_type : string) :
  _nios (self w) !! port_number = None →
  start_capture port_number output_file data_link_type w
  = (Raise (PortNotAllocatedError port_number), w)
  ∧ stop_capture port_number w = (Raise (PortNotAllocatedError port_number), w).
Proof.
  intros Hp. open_world w. py_unfold. by rewrite (in_dict_None _ _ Hp).
Qed.

(** X18: when the NIO of the port has a filter in both directions,
    [start_capture] raises the filter-already-applied error of the port; no
    capability is called and the world is as before. *)
Theorem start_capture_refused_with_both_filters (w : World) (port_number : Z)
        (output_file data_link_type : string) (nio : nio_ref) :
  _nios (self w) !! port_number = Some nio →
  Py.is_not_None (input_filter (nio_objects w nio)).1 = true →
  Py.is_not_None (output_filter (nio_objects w nio)).1 = true →
  ∃ w', start_capture port_number output_file data_link_type w
        = (Raise (FilterAlreadyAppliedError port_number), w')
        ∧ w' = w
        ∧ nio_calls w' = nio_calls w.
Proof.
  intros Hp Hin Hout. exists w.
  by rewrite (start_capture_run w _ _ _ nio Hp), Hin, Hout.
Qed.

(** X19: when [bind_filter] fails, [start_capture] raises that failure and
    [setup_filter] is not called: the one call made is the bind, and the NIO
    is left as the failed bind left it. *)
Theorem start_capture_bind_failure (w : World) (port_number : Z)
        (output_file data_link_type : string) (nio : nio_ref) (o1 : NIO) :
  _nios (self w) !! port_number = Some nio →
  Py.is_not_None (input_filter (nio_objects w nio)).1
    && Py.is_not_None (output_filter (nio_objects w nio)).1 = false →
  bind_filter (nio_objects w nio) "both" "capture" = (false, o1) →
  ∃ w', start_capture port_number output_file data_link_type w
        = (Raise (NIOError "bind_filter"), w')
        ∧ nio_calls w' = (nio_calls w ++ [BindFilter nio "both" "capture"])%list
        ∧ nio_objects w' nio = o1
        ∧ self w' = self w.
Proof.
  intros Hp Hfree Hbind. rewrite (start_capture_run w _ _ _ nio Hp), Hfree.
  unfold bind, invoke. simpl. rewrite Hbind. eexists. split; [done|]. simpl.
  split; [done|]. split; [apply fn_lookup_insert|done].
Qed.

(** X20: when [bind_filter] succeeds and [setup_filter] then fails,
    [start_capture] raises the failure of the setup and does not undo the
    bind: the calls made are the bind and the setup, no [unbind_filter], and
    the NIO is left as the setup left the bound NIO. *)
Theorem start_capture_setup_failure (w : World) (port_number : Z)
        (output_file data_link_type : string) (nio : nio_ref) (o1 o2 : NIO) :
  _nios (self w) !! port_number = Some nio →
  Py.is_not_None (input_filter (nio_objects w nio)).1
    && Py.is_not_None (output_filter (nio_objects w nio)).1 = false →
  bind_filter (nio_objects w nio) "both" "capture" = (true, o1) →
  setup_filter o1 "both" (normalize_data_link_type data_link_type +:+ " " +:+ output_file)
  = (false, o2) →
  ∃ w', start_capture port_number output_file data_link_type w
        = (Raise (NIOError "setup_filter"), w')
        ∧ nio_calls w' =
            (nio_calls w ++
               [BindFilter nio "both" "capture";
                SetupFilter nio "both"
                            (normalize_data_link_type data_link_type +:+ " " +:+ output_file)])%list
        ∧ nio_objects w' nio = o2
        ∧ self w' = self w.
Proof.
  intros Hp Hfree Hbind Hsetup. rewrite (start_capture_run w _ _ _ nio Hp), Hfree.
  unfold bind, invoke. simpl. rewrite Hbind. simpl.
  rewrite fn_lookup_insert, Hsetup. eexists. split; [done|]. simpl.
  split; [by rewrite <- app_assoc|]. split; [apply fn_lookup_insert|done].
Qed.

(** X21: when both capabilities succeed, [start_capture] succeeds and the NIO
    of the port is what [setup_filter] made of the bound NIO, every other NIO
    object being untouched. If that leaves a filter in both directions, a
    second [start_capture] is refused, on this port and on any other port
    bound to the same NIO. *)
Theorem capture_cannot_start_twice (w : World) (port_number : Z)
        (output_file data_link_type : string) (nio : nio_ref) (o1 o2 : NIO) :
  _nios (self w) !! port_number = Some nio →
  Py.is_not_None (input_filter (nio_objects w nio)).1
    && Py.is_not_None (output_filter (nio_objects w nio)).1 = false →
  bind_filter (nio_objects w nio) "both" "capture" = (true, o1) →
  setup_filter o1 "both" (normalize_data_link_type data_link_type +:+ " " +:+ output_file)
  = (true, o2) →
  ∃ w', start_capture port_number output_file data_link_type w = (Ok tt, w')
        ∧ nio_objects w' nio = o2
        ∧ (∀ other, other ≠ nio → nio_objects w' other = nio_objects w other)
        ∧ (Py.is_not_None (input_filter o2).1 = true →
           Py.is_not_None (output_filter o2).1 = true →
           ∀ q output_file' data_link_type',
             _nios (self w) !! q = Some nio →
             start_capture q output_file' data_link_type' w'
             = (Raise (FilterAlreadyAppliedError q), w')).
Proof.
  intros Hp Hfree Hbind Hsetup. rewrite (start_capture_run w _ _ _ nio Hp), Hfree.
  unfold bind, invoke. simpl. rewrite Hbind. simpl.
  rewrite fn_lookup_insert, Hsetup. eexists. split; [done|]. simpl.
  split; [apply fn_lookup_insert|].
  split; [intros other Hne; by rewrite !fn_lookup_insert_ne|].
  intros Hin Hout q output_file' data_link_type' Hq.
  match goal with
  | |- start_capture _ _ _ ?w' = _ =>
      rewrite (start_capture_run w' q output_file' data_link_type' nio Hq)
  end.
  simpl. by rewrite fn_lookup_insert, Hin, Hout.
Qed.

(** X22: on an allocated port, [stop_capture] calls [unbind_filter] in both
    directions on the NIO of the port, once, without looking at the filters
    of the NIO; it succeeds when the capability does and raises its failure
    otherwise, and the NIO is left as the capability left it. *)
Theorem stop_capture_unbinds (w : World) (port_number : Z) (nio : nio_ref) :
  _nios (self w) !! port_number = Some nio →
  ∃ w', stop_capture port_number w
        = (if (unbind_filter (nio_objects w nio) "both").1
           then Ok tt else Raise (NIOError "unbind_filter"), w')
        ∧ nio_calls w' = (nio_calls w ++ [UnbindFilter nio "both"])%list
        ∧ nio_objects w' nio = (unbind_filter (nio_objects w nio) "both").2
        ∧ (∀ other, other ≠ nio → nio_objects w' other = nio_objects w other)
        ∧ self w' = self w.
Proof.
  intros Hp. open_world w. py_unfold.
  rewrite (in_dict_Some _ _ _ Hp). simpl. rewrite Hp. simpl. unfold invoke. simpl.
  destruct (unbind_filter (objects nio) "both") as [ok o]. simpl.
  eexists. split; [done|]. simpl. split; [done|].
  split; [apply fn_lookup_insert|]. split; [|done].
  intros other Hne. by rewrite fn_lookup_insert_ne.
Qed.

End MoreProperties.

(** ** The data link type *)

Lemma lower_char_idempotent (c : ascii) :
  Py.lower_char (Py.lower_char c) = Py.lower_char c.
Proof.
  by destruct c as [[] [] [] [] [] [] [] []].
Qed.

Lemma lower_idempotent (s : string) : Py.lower (Py.lower s) = Py.lower s.
Proof.
  induction s as [|c s IH]; simpl; [done|]. by rewrite lower_char_idempotent, IH.
Qed.

Lemma lower_slice_from (n : nat) (s : string) :
  Py.lower (Py.slice_from n s) = Py.slice_from n (Py.lower s).
Proof.
  revert s. induction n as [|n IH]; intros [|c s]; simpl; auto.
Qed.

Lemma length_lower (s : string) : String.length (Py.lower s) = String.length s.
Proof.
  induction s as [|c s IH]; simpl; [done|]. by rewrite IH.
Qed.

Lemma length_slice_from (n : nat) (s : string) :
  String.length (Py.slice_from n s) = (String.length s - n)%nat.
Proof.
  revert s. induction n as [|n IH]; intros [|c s]; simpl; auto with lia.
Qed.

(** X23: the normalization of the data link type does not depend on the case
    of its input, gives a string that is its own lower case, and drops four
    characters when the lower-cased input starts with [dlt_] and none
    otherwise. *)
Theorem normalize_ignores_case (data_link_type : string) :
  normalize_data_link_type (Py.lower data_link_type) = normalize_data_link_type data_link_type
  ∧ Py.lower (normalize_data_link_type data_link_type) = normalize_data_link_type data_link_type
  ∧ String.length (normalize_data_link_type data_link_type)
    = (if Py.startswith (Py.lower data_link_type) "dlt_"
       then String.length data_link_type - 4
       else String.length data_link_type)%nat.
Proof.
  unfold normalize_data_link_type. rewrite lower_idempotent.
  split; [done|].
  destruct (Py.startswith (Py.lower data_link_type) "dlt_").
  - split; [by rewrite lower_slice_from, lower_idempotent|].
    by rewrite length_slice_from, length_lower.
  - split; [apply lower_idempotent|apply length_lower].
Qed.

(** ** Properties of [create] and [delete] *)

Lemma list_remove_absent (x : string) (l : list string) :
  x ∉ l → list_remove x l = None.
Proof.
  induction l as [|y l IH]; intros Hx; simpl; [done|].
  apply not_elem_of_cons in Hx as [Hne Hx].
  destruct (String.eqb y x) eqn:Heq.
  - apply String.eqb_eq in Heq. congruence.
  - by rewrite (IH Hx).
Qed.

Lemma list_remove_last (x : string) (l : list string) :
  x ∉ l → list_remove x (l ++ [x]) = Some l.
Proof.
  induction l as [|y l IH]; intros Hx; simpl.
  - by rewrite String.eqb_refl.
  - apply not_elem_of_cons in Hx as [Hne Hx].
    destruct (String.eqb y x) eqn:Heq.
    + apply String.eqb_eq in Heq. congruence.
    + by rewrite (IH Hx).
Qed.

Section LifecycleProperties.

Context {channel : Channel} {manager : Manager}.

Lemma hypervisor_send_run (w : World) (hv : Hypervisor) (command : string) :
  _hypervisor (self w) = Some hv →
  hypervisor_send command w =
    (match send (hv_sent hv) command with
     | inl _ => Ok tt
     | inr r => Raise (ProtocolError command r)
     end, logged hv command w).
Proof.
  intros Hhv. open_world w. subst hypervisor. py_unfold.
  unfold logged, set_self. simpl. by destruct (send _ _).
Qed.

Lemma create_run (st : Site) (hv : Hypervisor) :
  _hypervisor (self (world st)) = Some hv →
  Lifecycle.create st =
    match send (hv_sent hv) (create_command (world st)) with
    | inl _ =>
        (Done, mkSite (logged hv (create_command (world st)) (world st))
                      (devices st ++ [_id (self (world st))]) (_instances st))
    | inr r =>
        (Failed (Propagated (ProtocolError (create_command (world st)) r)),
         mkSite (logged hv (create_command (world st)) (world st))
                (devices st) (_instances st))
    end.
Proof.
  intros Hhv. unfold Lifecycle.create, Lifecycle.ensure_hypervisor. rewrite Hhv.
  rewrite (hypervisor_send_run (world st) hv _ Hhv). by destruct (send _ _).
Qed.

Lemma delete_run (st : Site) (hv : Hypervisor) :
  _hypervisor (self (world st)) = Some hv →
  Lifecycle.delete st =
    match send (hv_sent hv) (delete_command (world st)) with
    | inl _ =>
        match list_remove (_id (self (world st))) (devices st) with
        | None =>
            (Failed not_in_list,
             mkSite (logged hv (delete_command (world st)) (world st))
                    (devices st) (_instances st))
        | Some devices1 =>
            match list_remove (_id (self (world st))) (_instances st) with
            | None =>
                (Failed not_in_list,
                 mkSite (logged hv (delete_command (world st)) (world st))
                        devices1 (_instances st))
            | Some instances1 =>
                (Done, mkSite (logged hv (delete_command (world st)) (world st))
                              devices1 instances1)
            end
        end
    | inr r =>
        (Failed (Propagated (ProtocolError (delete_command (world st)) r)),
         mkSite (logged hv (delete_command (world st)) (world st))
                (devices st) (_instances st))
    end.
Proof.
  intros Hhv. unfold Lifecycle.delete.
  rewrite (hypervisor_send_run (world st) hv _ Hhv). by destruct (send _ _).
Qed.

(** X24: [create] on a device that has a hypervisor does not ask the manager
    for one: it sends [atmsw create "name"] over the hypervisor it has; when
    the command is acknowledged the device is appended to the devices of the
    hypervisor, and when it is not the failure is raised and the device list
    is as before. The tables and the identifier pool are not touched. *)
Theorem create_on_bound_hypervisor (st : Site) (hv : Hypervisor) :
  _hypervisor (self (world st)) = Some hv →
  ∃ res st',
    Lifecycle.create st = (res, st')
    ∧ commands_sent (world st') =
        (hv_sent hv ++ ["atmsw create " +:+ Py.quoted (_name (self (world st)))])%list
    ∧ _nios (self (world st')) = _nios (self (world st))
    ∧ _mapping (self (world st')) = _mapping (self (world st))
    ∧ _instances st' = _instances st
    ∧ match send (hv_sent hv) (create_command (world st)) with
      | inl _ => res = Done ∧ devices st' = (devices st ++ [_id (self (world st))])%list
      | inr r =>
          res = Failed (Propagated (ProtocolError (create_command (world st)) r))
          ∧ devices st' = devices st
      end.
Proof.
  intros Hhv. rewrite (create_run st hv Hhv).
  destruct (send _ _); eexists _, _; (split; [done|]); simpl; done.
Qed.

(** X25: [create] on a device without a hypervisor asks the manager for one.
    When the manager fails, that failure is raised and nothing has changed.
    Otherwise the device keeps the new hypervisor, the create command is the
    next command sent over it, and the device is appended to the devices of
    the new hypervisor when the command is acknowledged and not when it
    fails. *)
Theorem create_without_hypervisor (st : Site) :
  _hypervisor (self (world st)) = None →
  match start_new_hypervisor with
  | inr e => Lifecycle.create st = (Failed (Propagated e), st)
  | inl (hv, hv_devices) =>
      ∃ res st',
        Lifecycle.create st = (res, st')
        ∧ _hypervisor (self (world st')) =
            Some (mkHypervisor (hv_sent hv ++ [create_command (world st)]))
        ∧ match send (hv_sent hv) (create_command (world st)) with
          | inl _ => res = Done ∧ devices st' = (hv_devices ++ [_id (self (world st))])%list
          | inr r =>
              res = Failed (Propagated (ProtocolError (create_command (world st)) r))
              ∧ devices st' = hv_devices
          end
  end.
Proof.
  intros Hhv. unfold Lifecycle.create, Lifecycle.ensure_hypervisor. rewrite Hhv.
  destruct start_new_hypervisor as [[hv hv_devices]|e]; [|done].
  cbn [world].
  rewrite (hypervisor_send_run (with_hypervisor hv (world st)) hv _ eq_refl).
  change (create_command (with_hypervisor hv (world st))) with (create_command (world st)).
  destruct (send _ _); eexists _, _; (split; [done|]); simpl; done.
Qed.

(** X26: [create] is not idempotent: called twice on a channel that
    acknowledges every command, it sends the create command twice and the
    device is twice in the devices of the hypervisor. *)
Theorem create_twice_registers_twice (st : Site) (hv : Hypervisor) :
  _hypervisor (self (world st)) = Some hv →
  (∀ log cmd, ∃ a, send log cmd = inl a) →
  ∃ st1 st2,
    Lifecycle.create st = (Done, st1)
    ∧ Lifecycle.create st1 = (Done, st2)
    ∧ devices st2 = (devices st ++ [_id (self (world st)); _id (self (world st))])%list
    ∧ commands_sent (world st2) =
        (hv_sent hv ++ [create_command (world st); create_command (world st)])%list.
Proof.
  intros Hhv Hack. rewrite (create_run st hv Hhv).
  destruct (Hack (hv_sent hv) (create_command (world st))) as [a ->].
  eexists. eexists. split; [done|].
  match goal with
  | |- context [Lifecycle.create ?st1] =>
      rewrite (create_run st1 (mkHypervisor (hv_sent hv ++ [create_command (world st)]))
                          eq_refl)
  end.
  cbn [hv_sent world].
  destruct (Hack (hv_sent hv ++ [create_command (world st)])%list
                 (create_command (logged hv (create_command (world st)) (world st))))
    as [a' ->].
  split; [done|]. simpl. split; [by rewrite <- app_assoc|].
  unfold commands_sent, create_command. simpl. by rewrite <- app_assoc.
Qed.

(** X27: [delete] sends [atmsw delete "name"] before it touches a registry.
    When the channel fails, the device stays in the devices of the hypervisor
    and its identifier stays in the pool. When the command is acknowledged
    and the device is not among the devices of the hypervisor, the removal
    raises [ValueError] after the hypervisor has deleted the switch, and the
    identifier stays in the pool. *)
Theorem delete_failures (st : Site) (hv : Hypervisor) :
  _hypervisor (self (world st)) = Some hv →
  ∃ res st',
    Lifecycle.delete st = (res, st')
    ∧ commands_sent (world st') =
        (hv_sent hv ++ ["atmsw delete " +:+ Py.quoted (_name (self (world st)))])%list
    ∧ (∀ r, send (hv_sent hv) (delete_command (world st)) = inr r →
            res = Failed (Propagated (ProtocolError (delete_command (world st)) r))
            ∧ devices st' = devices st
            ∧ _instances st' = _instances st)
    ∧ (∀ a, send (hv_sent hv) (delete_command (world st)) = inl a →
            _id (self (world st)) ∉ devices st →
            res = Failed not_in_list
            ∧ devices st' = devices st
            ∧ _instances st' = _instances st).
Proof.
  intros Hhv. rewrite (delete_run st hv Hhv).
  destruct (send _ _) as [a|r] eqn:Hsend.
  - destruct (list_remove _ (devices st)) as [devices1|] eqn:Hdev.
    + destruct (list_remove _ (_instances st)) as [instances1|] eqn:Hinst;
        eexists _, _; (split; [done|]); simpl; (split; [done|]);
        (split; [intros r Hr; discriminate Hr|]);
        intros a' _ Habsent; rewrite (list_remove_absent _ _ Habsent) in Hdev;
        discriminate Hdev.
    + eexists _, _. split; [done|]. simpl. split; [done|].
      split; [intros r Hr; discriminate Hr|]. done.
  - eexists _, _. split; [done|]. simpl. split; [done|]. split.
    + intros r' Hr. by injection Hr as <-.
    + intros a Ha. discriminate Ha.
Qed.

(** X28: on a channel that acknowledges every command, [create] followed by
    [delete] on a device that was not yet among the devices of the hypervisor
    and whose identifier is in the pool leaves the devices of the hypervisor
    as they were and takes the identifier out of the pool; the hypervisor has
    received the create command and then the delete command, and the tables of
    the device are as before. *)
Theorem create_then_delete (st : Site) (hv : Hypervisor) (pool : list string) :
  _hypervisor (self (world st)) = Some hv →
  (∀ log cmd, ∃ a, send log cmd = inl a) →
  _id (self (world st)) ∉ devices st →
  list_remove (_id (self (world st))) (_instances st) = Some pool →
  ∃ st1 st2,
    Lifecycle.create st = (Done, st1)
    ∧ Lifecycle.delete st1 = (Done, st2)
    ∧ devices st2 = devices st
    ∧ _instances st2 = pool
    ∧ commands_sent (world st2) =
        (hv_sent hv ++ [create_command (world st); delete_command (world st)])%list
    ∧ _nios (self (world st2)) = _nios (self (world st))
    ∧ _mapping (self (world st2)) = _mapping (self (world st)).
Proof.
  intros Hhv Hack Hnew Hpool. rewrite (create_run st hv Hhv).
  destruct (Hack (hv_sent hv) (create_command (world st))) as [a ->].
  eexists. eexists. split; [done|].
  match goal with
  | |- context [Lifecycle.delete ?st1] =>
      rewrite (delete_run st1 (mkHypervisor (hv_sent hv ++ [create_command (world st)]))
                          eq_refl)
  end.
  cbn [hv_sent world devices _instances].
  destruct (Hack (hv_sent hv ++ [create_command (world st)])%list
                 (delete_command (logged hv (create_command (world st)) (world st))))
    as [a' ->].
  change (_id (self (logged hv (create_command (world st)) (world st))))
    with (_id (self (world st))).
  rewrite (list_remove_last _ _ Hnew), Hpool.
  split; [done|]. simpl. split; [done|]. split; [done|].
  split; [|done]. unfold commands_sent, delete_command, create_command. simpl.
  by rewrite <- app_assoc.
Qed.

End LifecycleProperties.

(** ** The further properties on the switch [SW1] *)

Lemma add_nio_binds_port_witness :
  _nios (self (sw1 both_ways)) !! 9 = None
  ∧ ∃ w', add_nio 7%N 9 (sw1 both_ways) = (Ok tt, w')
          ∧ has_port 9 w' = (Ok true, w')
          ∧ _mapping (self w') = both_ways.
Proof.
  split; [reflexivity|].
  destruct (add_nio_binds_port (sw1 both_ways) 7%N 9 eq_refl)
    as (w' & Hrun & _ & Hhas & _ & Hmap & _).
  exists w'. split; [exact Hrun|]. split; [exact Hhas|exact Hmap].
Defined.

Lemma add_remove_round_trip_witness :
  _nios (self (sw1 both_ways)) !! 9 = None
  ∧ ∃ w1, add_nio 7%N 9 (sw1 both_ways) = (Ok tt, w1)
          ∧ remove_nio 9 w1 = (Ok 7%N, sw1 both_ways).
Proof.
  split; [reflexivity|]. exact (add_remove_round_trip (sw1 both_ways) 7%N 9 eq_refl).
Defined.

Lemma remove_nio_leaves_circuits_witness :
  _nios (self (sw1 both_ways)) !! 1 = Some 1%N
  ∧ ∃ w', remove_nio 1 (sw1 both_ways) = (Ok 1%N, w')
          ∧ has_port 1 w' = (Ok false, w')
          ∧ _mapping (self w') = both_ways.
Proof.
  split; [reflexivity|].
  destruct (remove_nio_leaves_circuits (sw1 both_ways) 1%N 1 eq_refl)
    as (w' & Hrun & _ & Hhas & _ & Hmap & _).
  exists w'. split; [exact Hrun|]. split; [exact Hhas|exact Hmap].
Defined.

Lemma dangling_circuit_cannot_be_unmapped_witness :
  _nios (self (sw1 both_ways)) !! 1 = Some 1%N
  ∧ _mapping (self (sw1 both_ways)) !! [1; 5] = Some [2; 7]
  ∧ ∃ w1, remove_nio 1 (sw1 both_ways) = (Ok 1%N, w1)
          ∧ _mapping (self w1) !! [1; 5] = Some [2; 7]
          ∧ @unmap_vp ack_channel 1 5 2 7 w1 = (Raise (PortNotAllocatedError 1), w1).
Proof.
  split; [reflexivity|]. split; [reflexivity|].
  exact (@dangling_circuit_cannot_be_unmapped ack_channel (sw1 both_ways) 1%N 1 5 2 7 [2; 7]
           eq_refl eq_refl).
Defined.

Lemma unmap_with_unallocated_port_witness :
  (¬ is_Some (_nios (self (sw1 both_ways)) !! 9) ∨ ¬ is_Some (_nios (self (sw1 both_ways)) !! 1))
  ∧ ∃ p, @unmap_vp ack_channel 9 5 1 7 (sw1 both_ways)
         = (Raise (PortNotAllocatedError p), sw1 both_ways).
Proof.
  split; [left; apply sw1_port9|].
  destruct (@unmap_with_unallocated_port ack_channel (sw1 both_ways) 9 5 100 1 7 200
              (or_introl (sw1_port9 both_ways))) as (p & _ & _ & _ & Hvp & _).
  exists p. exact Hvp.
Defined.

Lemma map_vp_records_circuit_witness :
  _hypervisor (self (sw1 both_ways)) = Some (mkHypervisor [])
  ∧ _nios (self (sw1 both_ways)) !! 1 = Some 1%N
  ∧ _nios (self (sw1 both_ways)) !! 2 = Some 2%N
  ∧ ∃ w', @map_vp ack_channel 1 5 2 9 (sw1 both_ways) = (Ok tt, w')
          ∧ _mapping (self w') !! [1; 5] = Some [2; 9]
          ∧ _mapping (self w') !! [2; 7] = Some [1; 5].
Proof.
  split; [reflexivity|]. split; [reflexivity|]. split; [reflexivity|].
  assert (Hack : ∃ a, @send ack_channel []
                        (vp_command "create_vpc" (sw1 both_ways) 1%N 5 2%N 9) = inl a)
    by (exists "100-OK"; reflexivity).
  destruct (@map_vp_records_circuit ack_channel (sw1 both_ways) (mkHypervisor []) 1 5 2 9
              1%N 2%N eq_refl eq_refl eq_refl Hack) as (w' & Hrun & Hkey & Hother & _).
  exists w'. split; [exact Hrun|]. split; [exact Hkey|].
  rewrite (Hother [2; 7]); [reflexivity|discriminate].
Defined.

Lemma map_pvc_records_circuit_witness :
  _hypervisor (self (sw1 both_ways)) = Some (mkHypervisor [])
  ∧ _nios (self (sw1 both_ways)) !! 1 = Some 1%N
  ∧ _nios (self (sw1 both_ways)) !! 2 = Some 2%N
  ∧ ∃ w', @map_pvc ack_channel 1 5 100 2 7 200 (sw1 both_ways) = (Ok tt, w')
          ∧ _mapping (self w') !! [1; 5; 100] = Some [2; 7; 200]
          ∧ _mapping (self w') !! [1; 5] = Some [2; 7].
Proof.
  split; [reflexivity|]. split; [reflexivity|]. split; [reflexivity|].
  assert (Hack : ∃ a, @send ack_channel []
                        (vc_command "create_vcc" (sw1 both_ways) 1%N 5 100 2%N 7 200) = inl a)
    by (exists "100-OK"; reflexivity).
  destruct (@map_pvc_records_circuit ack_channel (sw1 both_ways) (mkHypervisor [])
              1 5 100 2 7 200 1%N 2%N eq_refl eq_refl eq_refl Hack)
    as (w' & Hrun & Hkey & _ & Hvp & _).
  exists w'. split; [exact Hrun|]. split; [exact Hkey|].
  rewrite (Hvp 1 5). reflexivity.
Defined.

Lemma map_unmap_pvc_round_trip_witness :
  _hypervisor (self (sw1 both_ways)) = Some (mkHypervisor [])
  ∧ _nios (self (sw1 both_ways)) !! 1 = Some 1%N
  ∧ _nios (self (sw1 both_ways)) !! 2 = Some 2%N
  ∧ (∀ log cmd, ∃ a, @send ack_channel log cmd = inl a)
  ∧ ∃ w1 w2,
      @map_pvc ack_channel 1 5 100 2 7 200 (sw1 both_ways) = (Ok tt, w1)
      ∧ @unmap_pvc ack_channel 1 5 100 2 7 200 w1 = (Ok tt, w2)
      ∧ _mapping (self w2) = both_ways.
Proof.
  split; [reflexivity|]. split; [reflexivity|]. split; [reflexivity|].
  split; [exact ack_channel_acknowledges|].
  destruct (@map_unmap_pvc_round_trip ack_channel (sw1 both_ways) (mkHypervisor [])
              1 5 100 2 7 200 1%N 2%N eq_refl eq_refl eq_refl ack_channel_acknowledges)
    as (w1 & w2 & Hmap & Hunmap & _ & Hfree & _).
  exists w1, w2. split; [exact Hmap|]. split; [exact Hunmap|]. exact (Hfree eq_refl).
Defined.

Lemma unmap_then_map_restores_witness :
  _hypervisor (self (sw1 both_ways)) = Some (mkHypervisor [])
  ∧ _nios (self (sw1 both_ways)) !! 1 = Some 1%N
  ∧ _nios (self (sw1 both_ways)) !! 2 = Some 2%N
  ∧ (∀ log cmd, ∃ a, @send ack_channel log cmd = inl a)
  ∧ _mapping (self (sw1 both_ways)) !! [1; 5] = Some [2; 7]
  ∧ ∃ w1 w2,
      @unmap_vp ack_channel 1 5 2 7 (sw1 both_ways) = (Ok tt, w1)
      ∧ @map_vp ack_channel 1 5 2 7 w1 = (Ok tt, w2)
      ∧ _mapping (self w2) = _mapping (self (sw1 both_ways)).
Proof.
  split; [reflexivity|]. split; [reflexivity|]. split; [reflexivity|].
  split; [exact ack_channel_acknowledges|]. split; [reflexivity|].
  exact (proj1 (@unmap_then_map_restores ack_channel (sw1 both_ways) (mkHypervisor [])
                  1 5 100 2 7 200 1%N 2%N eq_refl eq_refl eq_refl ack_channel_acknowledges)
               eq_refl).
Defined.

Lemma remap_overwrites_witness :
  _hypervisor (self sw1_shared_nio) = Some (mkHypervisor [])
  ∧ _nios (self sw1_shared_nio) !! 1 = Some 1%N
  ∧ _nios (self sw1_shared_nio) !! 2 = Some 2%N
  ∧ _nios (self sw1_shared_nio) !! 3 = Some 1%N
  ∧ (∀ log cmd, ∃ a, @send ack_channel log cmd = inl a)
  ∧ ∃ w1 w2,
      @map_vp ack_channel 1 5 2 7 sw1_shared_nio = (Ok tt, w1)
      ∧ @map_vp ack_channel 1 5 3 9 w1 = (Ok tt, w2)
      ∧ _mapping (self w2) = <[[1; 5] := [3; 9]]> (_mapping (self sw1_shared_nio))
      ∧ commands_sent w2 =
          [vp_command "create_vpc" sw1_shared_nio 1%N 5 2%N 7;
           vp_command "create_vpc" sw1_shared_nio 1%N 5 1%N 9].
Proof.
  split; [reflexivity|]. split; [reflexivity|]. split; [reflexivity|]. split; [reflexivity|].
  split; [exact ack_channel_acknowledges|].
  exact (@remap_overwrites ack_channel sw1_shared_nio (mkHypervisor []) 1 5 2 7 3 9
           1%N 2%N 1%N eq_refl eq_refl eq_refl eq_refl ack_channel_acknowledges).
Defined.

Lemma rename_then_map_uses_new_name_witness :
  _hypervisor (self (sw1 ∅)) = Some (mkHypervisor [])
  ∧ _nios (self (sw1 ∅)) !! 1 = Some 1%N
  ∧ _nios (self (sw1 ∅)) !! 2 = Some 2%N
  ∧ (∀ log cmd, ∃ a, @send ack_channel log cmd = inl a)
  ∧ ∃ w1 w2,
      @set_name ack_channel "SW2" (sw1 ∅) = (Ok tt, w1)
      ∧ @map_vp ack_channel 1 5 2 7 w1 = (Ok tt, w2)
      ∧ _name (self w2) = "SW2".
Proof.
  split; [reflexivity|]. split; [reflexivity|]. split; [reflexivity|].
  split; [exact ack_channel_acknowledges|].
  destruct (@rename_then_map_uses_new_name ack_channel (sw1 ∅) (mkHypervisor []) "SW2"
              1 5 2 7 1%N 2%N eq_refl eq_refl eq_refl ack_channel_acknowledges)
    as (w1 & w2 & Hname & _ & _ & _ & Hmap & Hnew & _).
  exists w1, w2. split; [exact Hname|]. split; [exact Hmap|exact Hnew].
Defined.

Lemma sw1_detached_ports_allocated : ports_allocated (MapVp 1 5 2 7) sw1_detached.
Proof.
  unfold ports_allocated. simpl.
  apply Forall_cons. split; [by exists 1%N|].
  apply Forall_cons. split; [by exists 2%N|]. apply Forall_nil_2.
Defined.

Lemma command_without_hypervisor_witness :
  issues_command (MapVp 1 5 2 7) = true
  ∧ _hypervisor (self sw1_detached) = None
  ∧ ports_allocated (MapVp 1 5 2 7) sw1_detached
  ∧ ∃ msg, @run ack_channel plain_filters (MapVp 1 5 2 7) sw1_detached
           = (Raise (AttributeError msg), sw1_detached).
Proof.
  split; [reflexivity|]. split; [reflexivity|]. split; [exact sw1_detached_ports_allocated|].
  exact (@command_without_hypervisor ack_channel plain_filters (MapVp 1 5 2 7) sw1_detached
           eq_refl eq_refl sw1_detached_ports_allocated).
Defined.

Lemma circuit_table_changes_only_at_source_key_witness :
  source_key (UnmapVp 1 5 2 7) ≠ Some [2; 7]
  ∧ _mapping (self (@run ack_channel plain_filters (UnmapVp 1 5 2 7) (sw1 both_ways)).2) !! [2; 7]
    = _mapping (self (sw1 both_ways)) !! [2; 7].
Proof.
  assert (Hne : source_key (UnmapVp 1 5 2 7) ≠ Some [2; 7]) by discriminate.
  split; [exact Hne|].
  exact (@circuit_table_changes_only_at_source_key ack_channel plain_filters
           (UnmapVp 1 5 2 7) (sw1 both_ways) [2; 7] Hne).
Defined.

Lemma only_capture_calls_nio_witness :
  captures_port (RemoveNio 1) = None
  ∧ nio_calls (@run ack_channel plain_filters (RemoveNio 1) (sw1 both_ways)).2
    = nio_calls (sw1 both_ways)
  ∧ nio_objects (@run ack_channel plain_filters (RemoveNio 1) (sw1 both_ways)).2
    = nio_objects (sw1 both_ways).
Proof.
  split; [reflexivity|].
  exact (@only_capture_calls_nio ack_channel plain_filters (RemoveNio 1) (sw1 both_ways)
           eq_refl).
Defined.

Lemma capture_on_unallocated_port_witness :
  _nios (self (sw1 ∅)) !! 3 = None
  ∧ @start_capture plain_filters 3 "/tmp/out.pcap" default_data_link_type (sw1 ∅)
    = (Raise (PortNotAllocatedError 3), sw1 ∅)
  ∧ @stop_capture plain_filters 3 (sw1 ∅) = (Raise (PortNotAllocatedError 3), sw1 ∅).
Proof.
  split; [reflexivity|].
  exact (@capture_on_unallocated_port plain_filters (sw1 ∅) 3 "/tmp/out.pcap"
           default_data_link_type eq_refl).
Defined.

Lemma start_capture_refused_with_both_filters_witness :
  _nios (self sw1_capturing) !! 1 = Some 1%N
  ∧ Py.is_not_None (input_filter (nio_objects sw1_capturing 1%N)).1 = true
  ∧ Py.is_not_None (output_filter (nio_objects sw1_capturing 1%N)).1 = true
  ∧ ∃ w', @start_capture plain_filters 1 "/tmp/two.pcap" default_data_link_type sw1_capturing
          = (Raise (FilterAlreadyAppliedError 1), w')
          ∧ w' = sw1_capturing
          ∧ nio_calls w' = nio_calls sw1_capturing.
Proof.
  split; [reflexivity|]. split; [reflexivity|]. split; [reflexivity|].
  exact (@start_capture_refused_with_both_filters plain_filters sw1_capturing 1
           "/tmp/two.pcap" default_data_link_type 1%N eq_refl eq_refl eq_refl).
Defined.

Lemma start_capture_bind_failure_witness :
  _nios (self (sw1 ∅)) !! 1 = Some 1%N
  ∧ @bind_filter bind_failing_filters (nio_objects (sw1 ∅) 1%N) "both" "capture"
    = (false, idle_nio "nio_udp1")
  ∧ ∃ w', @start_capture bind_failing_filters 1 "/tmp/out.pcap" default_data_link_type (sw1 ∅)
          = (Raise (NIOError "bind_filter"), w')
          ∧ nio_calls w' = [BindFilter 1%N "both" "capture"].
Proof.
  split; [reflexivity|]. split; [reflexivity|].
  destruct (@start_capture_bind_failure bind_failing_filters (sw1 ∅) 1 "/tmp/out.pcap"
              default_data_link_type 1%N (idle_nio "nio_udp1") eq_refl eq_refl eq_refl)
    as (w' & Hrun & Hcalls & _).
  exists w'. split; [exact Hrun|exact Hcalls].
Defined.

Lemma start_capture_setup_failure_witness :
  _nios (self (sw1 ∅)) !! 1 = Some 1%N
  ∧ ∃ w', @start_capture setup_failing_filters 1 "/tmp/out.pcap" default_data_link_type (sw1 ∅)
          = (Raise (NIOError "setup_filter"), w')
          ∧ (input_filter (nio_objects w' 1%N)).1 = Some "capture".
Proof.
  split; [reflexivity|].
  destruct (@start_capture_setup_failure setup_failing_filters (sw1 ∅) 1 "/tmp/out.pcap"
              default_data_link_type 1%N
              (mkNIO "nio_udp1" (Some "capture", None) (Some "capture", None))
              (mkNIO "nio_udp1" (Some "capture", None) (Some "capture", None))
              eq_refl eq_refl eq_refl eq_refl)
    as (w' & Hrun & _ & Hobj & _).
  exists w'. split; [exact Hrun|]. rewrite Hobj. reflexivity.
Defined.

Lemma capture_cannot_start_twice_witness :
  _nios (self sw1_shared_nio) !! 1 = Some 1%N
  ∧ _nios (self sw1_shared_nio) !! 3 = Some 1%N
  ∧ ∃ w', @start_capture plain_filters 1 "/tmp/out.pcap" default_data_link_type sw1_shared_nio
          = (Ok tt, w')
          ∧ @start_capture plain_filters 3 "/tmp/two.pcap" "DLT_EN10MB" w'
            = (Raise (FilterAlreadyAppliedError 3), w').
Proof.
  split; [reflexivity|]. split; [reflexivity|].
  destruct (@capture_cannot_start_twice plain_filters sw1_shared_nio 1 "/tmp/out.pcap"
              default_data_link_type 1%N
              (mkNIO "nio_udp1" (Some "capture", None) (Some "capture", None))
              (mkNIO "nio_udp1" (Some "capture", Some "atm_rfc1483 /tmp/out.pcap")
                     (Some "capture", Some "atm_rfc1483 /tmp/out.pcap"))
              eq_refl eq_refl eq_refl eq_refl)
    as (w' & Hrun & _ & _ & Htwice).
  exists w'. split; [exact Hrun|].
  exact (Htwice eq_refl eq_refl 3 "/tmp/two.pcap" "DLT_EN10MB" eq_refl).
Defined.

Lemma stop_capture_unbinds_witness :
  _nios (self sw1_capturing) !! 1 = Some 1%N
  ∧ ∃ w', @stop_capture plain_filters 1 sw1_capturing = (Ok tt, w')
          ∧ nio_calls w' = [UnbindFilter 1%N "both"]
          ∧ nio_objects w' 1%N = idle_nio "nio_udp1".
Proof.
  split; [reflexivity|].
  destruct (@stop_capture_unbinds plain_filters sw1_capturing 1 1%N eq_refl)
    as (w' & Hrun & Hcalls & Hobj & _).
  exists w'. split; [exact Hrun|]. split; [exact Hcalls|exact Hobj].
Defined.

Lemma create_on_bound_hypervisor_witness :
  _hypervisor (self (world site1)) = Some (mkHypervisor [])
  ∧ ∃ res st',
      @Lifecycle.create ack_channel failing_manager site1 = (res, st')
      ∧ res = Done
      ∧ devices st' = ["a1b0"; "9f2c"].
Proof.
  split; [reflexivity|].
  destruct (@create_on_bound_hypervisor ack_channel failing_manager site1 (mkHypervisor [])
              eq_refl) as (res & st' & Hrun & _ & _ & _ & _ & Hres & Hdev).
  exists res, st'. split; [exact Hrun|]. split; [exact Hres|exact Hdev].
Defined.

Lemma create_without_hypervisor_witness :
  _hypervisor (self (world site1_detached)) = None
  ∧ @Lifecycle.create ack_channel failing_manager site1_detached
    = (Failed (Propagated (DynamipsError "Dynamips executable not found")), site1_detached)
  ∧ ∃ res st',
      @Lifecycle.create ack_channel fresh_manager site1_detached = (res, st')
      ∧ res = Done
      ∧ devices st' = ["9f2c"].
Proof.
  split; [reflexivity|].
  split; [exact (@create_without_hypervisor ack_channel failing_manager site1_detached eq_refl)|].
  destruct (@create_without_hypervisor ack_channel fresh_manager site1_detached eq_refl)
    as (res & st' & Hrun & _ & Hres & Hdev).
  exists res, st'. split; [exact Hrun|]. split; [exact Hres|exact Hdev].
Defined.

Lemma create_twice_registers_twice_witness :
  _hypervisor (self (world site1)) = Some (mkHypervisor [])
  ∧ (∀ log cmd, ∃ a, @send ack_channel log cmd = inl a)
  ∧ ∃ st1 st2,
      @Lifecycle.create ack_channel failing_manager site1 = (Done, st1)
      ∧ @Lifecycle.create ack_channel failing_manager st1 = (Done, st2)
      ∧ devices st2 = ["a1b0"; "9f2c"; "9f2c"].
Proof.
  split; [reflexivity|]. split; [exact ack_channel_acknowledges|].
  destruct (@create_twice_registers_twice ack_channel failing_manager site1 (mkHypervisor [])
              eq_refl ack_channel_acknowledges) as (st1 & st2 & H1 & H2 & Hdev & _).
  exists st1, st2. split; [exact H1|]. split; [exact H2|exact Hdev].
Defined.

Lemma site1_not_registered : _id (self (world site1)) ∉ devices site1.
Proof.
  intros Hin. apply list_elem_of_singleton in Hin. discriminate Hin.
Defined.

Lemma delete_failures_witness :
  _hypervisor (self (world site1)) = Some (mkHypervisor [])
  ∧ (_id (self (world site1)) ∉ devices site1)
  ∧ ∃ res st',
      @Lifecycle.delete ack_channel site1 = (res, st')
      ∧ commands_sent (world st') = [delete_command (world site1)]
      ∧ res = Failed not_in_list
      ∧ _instances st' = ["a1b0"; "9f2c"].
Proof.
  split; [reflexivity|]. split; [exact site1_not_registered|].
  destruct (@delete_failures ack_channel site1 (mkHypervisor []) eq_refl)
    as (res & st' & Hrun & Hsent & _ & Hack).
  destruct (Hack "100-OK" eq_refl site1_not_registered) as (Hres & _ & Hpool).
  exists res, st'. split; [exact Hrun|]. split; [exact Hsent|]. split; [exact Hres|exact Hpool].
Defined.

Lemma create_then_delete_witness :
  _hypervisor (self (world site1)) = Some (mkHypervisor [])
  ∧ (∀ log cmd, ∃ a, @send ack_channel log cmd = inl a)
  ∧ (_id (self (world site1)) ∉ devices site1)
  ∧ list_remove (_id (self (world site1))) (_instances site1) = Some ["a1b0"]
  ∧ ∃ st1 st2,
      @Lifecycle.create ack_channel failing_manager site1 = (Done, st1)
      ∧ @Lifecycle.delete ack_channel st1 = (Done, st2)
      ∧ devices st2 = ["a1b0"]
      ∧ _instances st2 = ["a1b0"].
Proof.
  split; [reflexivity|]. split; [exact ack_channel_acknowledges|].
  split; [exact site1_not_registered|]. split; [reflexivity|].
  destruct (@create_then_delete ack_channel failing_manager site1 (mkHypervisor []) ["a1b0"]
              eq_refl ack_channel_acknowledges site1_not_registered eq_refl)
    as (st1 & st2 & H1 & H2 & Hdev & Hpool & _).
  exists st1, st2. split; [exact H1|]. split; [exact H2|]. split; [exact Hdev|exact Hpool].
Defined.
